(** * search-aggregator: the merge and report pipeline

    A shallow embedding of [aggregate_search.py], [multi_search.py],
    [search_utils/files.py] and [search_engines/http_client.py], followed by
    the properties of the result-merging pipeline, of the report file and of
    the HTTP wrapper.

    Conventions.  A Python [str] is a [string]; one [ascii] stands for one
    character with code point below 256.  A Python [list] is a [list].  The
    tuples built by [zip] are Rocq tuples: [(url, title, detail)] in
    [aggregate_search], [(url, title)] in [multi_search]; the class
    [Py.Tuple] gives both their subscripts.  A [dict] is an
    association list in insertion order with pairwise distinct keys, because
    the programs depend on the order in which [dict.values()] iterates. *)

From Stdlib Require Import ZArith Ascii String.
From stdpp Require Import base option list strings gmap.

(** ** The Python built-ins the programs use *)

Module Py.

(** [sub in s] on strings: [sub] occurs in [s] as a contiguous substring. *)
Fixpoint str_in (sub s : string) : bool :=
  String.prefix sub s ||
  match s with
  | EmptyString => false
  | String _ s' => str_in sub s'
  end.

(** [s.replace(old, new)] for a one-character [old]. *)
Fixpoint str_replace (old : ascii) (new : string) (s : string) : string :=
  match s with
  | EmptyString => EmptyString
  | String c s' =>
      if decide (c = old) then new +:+ str_replace old new s'
      else String c (str_replace old new s')
  end.

(** [c.isspace()] on the characters below 256. *)
Definition isspace (c : ascii) : bool :=
  let n := nat_of_ascii c in
  (9 <=? n) && (n <=? 13) || (28 <=? n) && (n <=? 32)
  || (n =? 133) || (n =? 160).

(** [s.lstrip()]: leading whitespace removed. *)
Fixpoint lstrip (s : string) : string :=
  match s with
  | EmptyString => EmptyString
  | String c s' => if isspace c then lstrip s' else s
  end.

Fixpoint spaces (n : nat) : string :=
  match n with
  | O => EmptyString
  | S n' => String " " (spaces n')
  end.

(** [s.ljust(width)]. *)
Definition ljust (width : nat) (s : string) : string :=
  s +:+ spaces (width - String.length s).

(** ["=" * n] and the like. *)
Fixpoint str_mul (s : string) (n : nat) : string :=
  match n with
  | O => EmptyString
  | S n' => s +:+ str_mul s n'
  end.

(** [str(n)] for a length. *)
Definition str_of_nat (n : nat) : string := pretty.pretty n.

(** [l[start:stop]]: a negative bound counts from the end, and both bounds
    are clamped to the list. *)
Definition slice_bound (len i : Z) : Z :=
  if (i <? 0)%Z then Z.max 0 (i + len) else Z.min i len.

Definition slice {A} (start stop : Z) (l : list A) : list A :=
  let len := Z.of_nat (length l) in
  let lo := slice_bound len start in
  let hi := slice_bound len stop in
  take (Z.to_nat (hi - lo)) (drop (Z.to_nat lo) l).

(** [dict]: the items in insertion order. *)
Definition dict (K V : Type) : Type := list (K * V).

Section dict.
Context {K V : Type} `{EqDecision K}.

(** [d[k] = v]: the value of an existing key is replaced where the key
    stands; a new key goes to the end. *)
Fixpoint setitem (k : K) (v : V) (d : dict K V) : dict K V :=
  match d with
  | [] => [(k, v)]
  | (k', v') :: d' =>
      if decide (k' = k) then (k', v) :: d'
      else (k', v') :: setitem k v d'
  end.

Fixpoint get (k : K) (d : dict K V) : option V :=
  match d with
  | [] => None
  | (k', v') :: d' => if decide (k' = k) then Some v' else get k d'
  end.

Definition keys (d : dict K V) : list K := d.*1.
Definition values (d : dict K V) : list V := d.*2.

(** [{key(x): x for x in xs}]. *)
Definition comprehension {A} (key : A → K) (val : A → V) (xs : list A)
  : dict K V :=
  foldl (λ d x, setitem (key x) (val x) d) [] xs.
End dict.

(** The one-element tuple [(x,)]. *)
Inductive tuple1 (A : Type) : Type := Tuple1 (x : A).
Global Arguments Tuple1 {A} x.

Global Instance tuple1_eq_dec {A} `{EqDecision A} : EqDecision (tuple1 A).
Proof. solve_decision. Defined.

(** The tuples of strings that the programs subscript: [tup[0]] is the first
    component, and the slice [tup[:1]] is the one-element tuple that holds
    it. *)
Class Tuple (T : Type) := {
  item0 : T → string;
  upto1 : T → tuple1 string;
  upto1_item0 : ∀ tup, upto1 tup = Tuple1 (item0 tup)
}.

Global Instance pair_Tuple : Tuple (string * string) :=
  {| item0 := λ tup, tup.1;
     upto1 := λ tup, Tuple1 tup.1;
     upto1_item0 := λ tup, eq_refl |}.

Global Instance triple_Tuple : Tuple (string * string * string) :=
  {| item0 := λ tup, tup.1.1;
     upto1 := λ tup, Tuple1 tup.1.1;
     upto1_item0 := λ tup, eq_refl |}.

(** The line feed. *)
Definition nl : string := String (ascii_of_nat 10) EmptyString.

(** [sum(...)] over a generator of booleans. *)
Definition sum_bool (bs : list bool) : nat :=
  foldl (λ acc (b : bool), acc + (if b then 1 else 0)) 0 bs.

End Py.

(** ** The world the programs run in, and the monad that threads it *)

(** The command-line options that [argparse] knows for both parsers: the two
    [store_true] flags the programs declare, and the [--help] that every
    [ArgumentParser()] adds for itself. *)
Inductive cli_flag := FlagAbout | FlagUse | FlagHelp.

Global Instance cli_flag_eq_dec : EqDecision cli_flag.
Proof. solve_decision. Defined.

Inductive exn :=
| SystemExit (code : Z)
| FileNotFoundError (path : string)
| OSError (path : string)
| KeyError (key : string)
| EOFError
| KeyboardInterrupt.

Global Instance exn_eq_dec : EqDecision exn.
Proof. solve_decision. Defined.

Record world := World {
  argv : list cli_flag;          (* sys.argv[1:] *)
  stdin : list string;           (* the lines input() is still to read *)
  stdout : string;               (* everything printed so far *)
  now : string;                  (* datetime.now().strftime("%x %X") *)
  files : gmap string string;    (* the text files, by path *)
  open_error : string → option exn
    (* how the OS answers open(path, 'a') when it refuses: a missing
       parent directory, a directory of that name, no permission *)
}.

Definition set_stdin (l : list string) (w : world) : world :=
  World (argv w) l (stdout w) (now w) (files w) (open_error w).
Definition set_stdout (s : string) (w : world) : world :=
  World (argv w) (stdin w) s (now w) (files w) (open_error w).
Definition set_files (m : gmap string string) (w : world) : world :=
  World (argv w) (stdin w) (stdout w) (now w) m (open_error w).

Inductive outcome (A : Type) : Type :=
| Return (a : A)
| Raise (e : exn).
Global Arguments Return {A} a.
Global Arguments Raise {A} e.

Definition io (A : Type) : Type := world → outcome A * world.

Definition io_ret {A} (a : A) : io A := λ w, (Return a, w).

Definition io_bind {A B} (m : io A) (k : A → io B) : io B := λ w,
  match m w with
  | (Return a, w') => k a w'
  | (Raise e, w') => (Raise e, w')
  end.

Declare Scope io_scope.
Delimit Scope io_scope with io.
Bind Scope io_scope with io.
Notation "x <- m ;; k" := (io_bind m (λ x, k))
  (at level 100, m at next level, right associativity) : io_scope.
Notation "m ;; k" := (io_bind m (λ _, k))
  (at level 100, right associativity) : io_scope.
Local Open Scope io_scope.

Definition raise {A} (e : exn) : io A := λ w, (Raise e, w).

(** [try: body except <handled>: handler]. *)
Definition try_except {A} (body : io A) (handled : exn → bool)
    (handler : exn → io A) : io A := λ w,
  match body w with
  | (Raise e, w') => if handled e then handler e w' else (Raise e, w')
  | r => r
  end.

(** A [for] loop that carries the local variables [acc] along. *)
Fixpoint for_each {A S} (xs : list A) (acc : S) (body : S → A → io S)
  : io S :=
  match xs with
  | [] => io_ret acc
  | x :: xs' => (acc' <- body acc x ;; for_each xs' acc' body)
  end.

(** [print(s)]. *)
Definition print (s : string) : io unit := λ w,
  (Return tt, set_stdout (stdout w +:+ s +:+ Py.nl) w).

(** [input(prompt)]. *)
Definition input (prompt : string) : io string := λ w,
  match stdin w with
  | [] => (Raise EOFError, set_stdout (stdout w +:+ prompt) w)
  | line :: rest =>
      (Return line, set_stdin rest (set_stdout (stdout w +:+ prompt) w))
  end.

(** [sys.exit(code)]. *)
Definition sys_exit (code : Z) : io unit := raise (SystemExit code).

(** [datetime.now().strftime("%x %X")]. *)
Definition datetime_now : io string := λ w, (Return (now w), w).

(** [time.sleep(2)] changes nothing that the model observes. *)
Definition time_sleep (seconds : nat) : io unit := io_ret tt.

(** [Path(path).read_text(encoding='utf-8')]. *)
Definition read_text (path : string) : io string := λ w,
  match files w !! path with
  | Some txt => (Return txt, w)
  | None => (Raise (FileNotFoundError path), w)
  end.

(** [with open(path, 'a', encoding='utf-8') as hits: hits.write(data)]:
    the file is created when it is missing, and [data] goes after whatever
    it holds. *)
Definition append_text (path data : string) : io unit := λ w,
  match open_error w path with
  | Some e => (Raise e, w)
  | None =>
      (Return tt,
       set_files (<[path := default EmptyString (files w !! path) +:+ data]>
                    (files w)) w)
  end.

(** [Path(path).unlink()]. *)
Definition unlink (path : string) : io unit := λ w,
  match files w !! path with
  | Some _ => (Return tt, set_files (delete path (files w)) w)
  | None => (Raise (FileNotFoundError path), w)
  end.

(** [d[k]] in a program: a missing key raises. *)
Definition getitem (k : string) (d : Py.dict string string) : io string :=
  match Py.get k d with
  | Some v => io_ret v
  | None => raise (KeyError k)
  end.

(** What the shell sees when the interpreter ends with this outcome. *)
Definition exit_status {A} (o : outcome A) : Z :=
  match o with
  | Return _ => 0
  | Raise (SystemExit code) => code
  | Raise _ => 1
  end.

(** [argparse.ArgumentParser().parse_args()] for a parser with the flags
    [--about] and [--use]: the options are taken from left to right, and
    [--help] prints the generated help and leaves at once with status 0. *)
Record namespace := Namespace { about : bool; use : bool }.

Fixpoint parser_parse_args_from (help : string) (args : list cli_flag)
    (ns : namespace) : io namespace :=
  match args with
  | [] => io_ret ns
  | FlagAbout :: rest =>
      parser_parse_args_from help rest (Namespace true (use ns))
  | FlagUse :: rest =>
      parser_parse_args_from help rest (Namespace (about ns) true)
  | FlagHelp :: _ => (print help ;; raise (SystemExit 0))
  end.

Definition parser_parse_args (help : string) : io namespace := λ w,
  parser_parse_args_from help (argv w) (Namespace false false) w.

(** ** search_utils/files.py *)

Module files.

Definition results2file (search_txt data : string) : io string :=
  let filename := "Results_" +:+ search_txt +:+ ".txt" in
  let filepath := filename in
  (append_text filepath data ;;
   io_ret filename).

Definition remove_file (search_txt : string) : io unit :=
  (filename <- results2file search_txt EmptyString ;;
   unlink filename).

End files.

(** ** search_engines/http_client.py *)

Module http_client.

(** What a request can raise: [requests.exceptions.RequestException] or one
    of its subclasses, with the [__doc__] of its class, or anything else. *)
Inductive exception :=
| RequestException (cls : string) (doc : option string)
| OtherException (cls : string).

Inductive result (A : Type) : Type :=
| Ok (a : A)
| Raised (e : exception).
Global Arguments Ok {A} a.
Global Arguments Raised {A} e.

(** The [requests.Response] that the session hands back. *)
Record reply := Reply { status_code : Z; text : string }.

(** The namedtuple [response(http, html)]; [html] is [None] for an exception
    class without docstring. *)
Record response := Response { http : Z; html : option string }.

(** The fields of [HttpClient] that [get] and [post] touch. *)
Record HttpClient := Client {
  headers : gmap string string;   (* self.session.headers *)
  timeout : Z                     (* self.timeout *)
}.

Section client.
(** [search_engines.utils] is not part of the sources at hand: its three
    string functions are parameters. *)
Variables (unquote_url quote_url decode_bytes : string → string).
(** The network: what [session.get] and [session.post] answer for the
    headers of the session, the page, the form data and the timeout. *)
Variable Data : Type.
Variable session_get : gmap string string → string → Z → result reply.
Variable session_post : gmap string string → string → Data → Z → result reply.

Definition _quote (url : string) : string :=
  if decide (decode_bytes (unquote_url url) = decode_bytes url)
  then quote_url url
  else url.

Definition get (self : HttpClient) (page : string)
  : result response * HttpClient :=
  let page := _quote page in
  match session_get (headers self) page (timeout self) with
  | Ok req =>
      let self := Client (<["Referer" := page]> (headers self)) (timeout self) in
      (Ok (Response (status_code req) (Some (text req))), self)
  | Raised (RequestException _ doc) => (Ok (Response 0 doc), self)
  | Raised e => (Raised e, self)
  end.

Definition post (self : HttpClient) (page : string) (data : Data)
  : result response * HttpClient :=
  let page := _quote page in
  match session_post (headers self) page data (timeout self) with
  | Ok req =>
      let self := Client (<["Referer" := page]> (headers self)) (timeout self) in
      (Ok (Response (status_code req) (Some (text req))), self)
  | Raised (RequestException _ doc) => (Ok (Response 0 doc), self)
  | Raised e => (Raised e, self)
  end.
End client.

End http_client.

(** ** The engine adapters *)

(** What [engine.search(term, pages)] returns: three parallel lists, read with
    [links()], [titles()] and [text()]. *)
Record search_results := SearchResults {
  links : list string;
  titles : list string;
  text : list string
}.

Definition Engine : Type := string → nat → search_results.

(** [for i, _title in enumerate(titles): titles[i] = f'{tag} {_title}'],
    on the list in place. *)
Definition prepend_tag (tag : string) (titles : list string) : list string :=
  foldl (λ titles i,
           match titles !! i with
           | Some _title => <[i := tag +:+ " " +:+ _title]> titles
           | None => titles
           end)
        titles (seq 0 (length titles)).

Definition is_FileNotFoundError (e : exn) : bool :=
  match e with FileNotFoundError _ => true | _ => false end.

(** [except (EOFError, KeyboardInterrupt)]. *)
Definition is_quit (e : exn) : bool :=
  match e with EOFError | KeyboardInterrupt => true | _ => false end.

(** [print(a, b)]. *)
Definition print2 (a b : string) : io unit := print (a +:+ " " +:+ b).

(** The [__main__] block of both programs; [sys.exit()] without a code ends
    with status 0. *)
Definition run_main (main : io unit) : io unit :=
  try_except main is_quit
    (λ _, print (" *** Keyboard interrupt: User has quit the program ***"
                 +:+ Py.nl) ;;
          sys_exit 0).

(** ** multi_search.py *)

Module multi_search.

Definition author : string := "Craig Echt".
Definition copyright : string := "Copyright (C) 2022 C.S. Echt".
Definition license : string := "GNU General Public License".
Definition program_name : string := "multi_search.py".
Definition project_url : string :=
  "https://github.com/csecht/Search-Engines-Scraper".
Definition version : string := "0.3.8".
Definition credits : string := "Tasos M Adamopoulos (tasos-py) and Mario Vilas".
Definition dev_environment : string := "Python 3.8".
Definition status : string := "Development Status :: 1 - Alpha".

Definition engine_names : Py.dict string string :=
  [("DDG", "DuckDuckGo"); ("Moj", "Mojeek"); ("SP", "Startpage");
   ("MG", "MetaGer")].

(** [unique_results = list({tup[:1]: tup for tup in combined_results}.values())];
    the program builds pairs [(url, title)]. *)
Definition unique_results {T} `{Py.Tuple T} (combined_results : list T)
  : list T :=
  Py.values (Py.comprehension (λ tup, Py.upto1 tup) (λ tup, tup)
               combined_results).

(** [len([hit for hit in unique_results if tag in hit[1]])]. *)
Definition num_uniq_hit (tag : string) (unique_results : list (string * string))
  : nat :=
  length (filter (λ hit, Is_true (Py.str_in tag hit.2)) unique_results).

Section program.
(** The module docstring, [__file__] and the help text that [argparse]
    generates. *)
Variables (module_doc module_file argparse_help : string).
(** The user agents drawn by [get_user_agent.rando_function]. *)
Variables (dgg_UA sp_UA moj_UA mg_UA : string).
(** The engine classes of [search_engines], applied to a user agent. *)
Variables (Duckduckgo Mojeek Startpage Metager : string → Engine).

Definition FileIt := files.results2file.

Definition engines : Py.dict string Engine :=
  [("DDG", Duckduckgo dgg_UA); ("Moj", Mojeek moj_UA);
   ("SP", Startpage sp_UA); ("MG", Metager mg_UA)].

Definition parse_args : io unit :=
  (args <- parser_parse_args argparse_help ;;
   (if about args then
      (print module_doc ;;
       print2 (Py.ljust 13 "Author:") author ;;
       print2 (Py.ljust 13 "License:") license ;;
       print2 (Py.ljust 13 "Copyright:") copyright ;;
       print2 (Py.ljust 13 "Program:") program_name ;;
       print2 (Py.ljust 13 "url:") project_url ;;
       print2 (Py.ljust 13 "Version:") version ;;
       print2 (Py.ljust 13 "Credits:") credits ;;
       print2 (Py.ljust 13 "Dev Env:") dev_environment ;;
       print2 (Py.ljust 13 "Status:") status ;;
       print EmptyString ;;
       sys_exit 0)
    else io_ret tt) ;;
   if use args then
     (print ("USAGE: Run " +:+ module_file +:+ " without arguments,"
             +:+ " then enter your search term at the prompt." +:+ Py.nl) ;;
      try_except
        (syntax <- read_text "multi_search_utils/use_syntax.txt" ;;
         print syntax)
        is_FileNotFoundError
        (λ _, print ("Sorry, but the use_syntax.txt file is not in the "
                     +:+ "multi_search_utils folder.")) ;;
      sys_exit 0)
   else io_ret tt).

(** The links and titles kept from one engine. *)
Definition kept (e_key : string) (_engine : Engine) (search_term : string)
  : list string * list string :=
  if Py.str_in e_key "DDG, MG" then
    let results := _engine search_term 1 in
    (Py.slice 0 20 (links results), Py.slice 0 20 (titles results))
  else
    let results := _engine search_term 2 in
    (links results, titles results).

Definition search_this (search_term : string) : io unit :=
  (combined_results <-
     for_each engines []
       (λ (combined_results : list (string * string))
          '((e_key, _engine) : string * Engine),
          let '(links, titles) := kept e_key _engine search_term in
          let titles := prepend_tag ("(" +:+ e_key +:+ ")") titles in
          let e_result := zip links titles in
          let combined_results := combined_results ++ e_result in
          (name <- getitem e_key engine_names ;;
           let e_count_msg :=
             "Keeping the first " +:+ Py.str_of_nat (length links)
             +:+ " results from " +:+ name +:+ " (" +:+ e_key +:+ ")" in
           print e_count_msg ;;
           FileIt search_term (e_count_msg +:+ Py.nl) ;;
           io_ret combined_results)) ;;
   let unique_results := unique_results combined_results in
   let result_summary :=
     "Found " +:+ Py.str_of_nat (length combined_results)
     +:+ " total results." +:+ Py.nl +:+ Py.nl
     +:+ "There are " +:+ Py.str_of_nat (length unique_results)
     +:+ " unique results." in
   print result_summary ;;
   FileIt search_term (result_summary +:+ Py.nl) ;;
   for_each (Py.keys engine_names) tt
     (λ _ tag,
        let tag := "(" +:+ tag +:+ ")" in
        let num_uniq_hit := num_uniq_hit tag unique_results in
        let tag_msg :=
          Py.str_of_nat num_uniq_hit
          +:+ " unique results retained from " +:+ tag in
        (print tag_msg ;;
         FileIt search_term (tag_msg +:+ Py.nl) ;;
         io_ret tt)) ;;
   time_sleep 2 ;;
   for_each unique_results tt
     (λ _ _r,
        let result_msg := Py.nl +:+ fst _r +:+ Py.nl +:+ snd _r in
        (print result_msg ;;
         FileIt search_term (result_msg +:+ Py.nl) ;;
         io_ret tt)) ;;
   name <- FileIt search_term EmptyString ;;
   print (Py.nl +:+ "Results were written or appended to " +:+ name) ;;
   print ("=============== END of " +:+ Py.str_of_nat (length unique_results)
          +:+ " results ==================") ;;
   FileIt search_term
     (Py.nl +:+ Py.str_mul "=" 26 +:+ " END of "
      +:+ Py.str_of_nat (length unique_results) +:+ " results "
      +:+ Py.str_mul "=" 26 +:+ Py.nl) ;;
   io_ret tt).

(** The local variable [user_agents_used] of [main]. *)
Definition user_agents_used : string :=
  Py.nl +:+ "User agent for each engine of this search:" +:+ Py.nl
  +:+ Py.ljust 11 "DuckDuckGo:" +:+ dgg_UA +:+ Py.nl
  +:+ Py.ljust 11 "Mojeek:" +:+ moj_UA +:+ Py.nl
  +:+ Py.ljust 11 "Startpage:" +:+ sp_UA +:+ Py.nl
  +:+ Py.ljust 11 "MetaGer:" +:+ mg_UA +:+ Py.nl.

(** [main] up to the writes of the header to the report file; it hands on
    the local variable [term]. *)
Definition main_header : io string :=
  (parse_args ;;
   term <- input (Py.nl +:+ "Enter search term: ") ;;
   let term := Py.str_replace " " "+" term in
   print user_agents_used ;;
   stamp <- datetime_now ;;
   let file_header := "SEARCH TERM: " +:+ term +:+ "    TIME: " +:+ stamp in
   FileIt term (file_header +:+ Py.nl +:+ Py.nl) ;;
   FileIt term (user_agents_used +:+ Py.nl) ;;
   io_ret term).

Definition main : io unit :=
  (term <- main_header ;;
   search_this term).

End program.

End multi_search.

(** ** aggregate_search.py *)

Module aggregate_search.

(** [unique_results = tuple({res[0]: res for res in combined_results}.values())];
    the program builds triples [(url, title, detail)]. *)
Definition unique_results {T} `{Py.Tuple T} (combined_results : list T)
  : list T :=
  Py.values (Py.comprehension (λ res, Py.item0 res) (λ res, res)
               combined_results).

(** [sum(tag in res[1] for res in unique_results)]. *)
Definition num_uniq (tag : string)
    (unique_results : list (string * string * string)) : nat :=
  Py.sum_bool (map (λ res, Py.str_in tag res.1.2) unique_results).

Section program.
(** The module docstring, [__file__] and the help text that [argparse]
    generates. *)
Variables (module_doc module_file argparse_help : string).
(** [aggregate_utils] is not part of the sources at hand.  Its [about.data],
    the user agents [agents[tag]], the constants of [config], the reporter
    [reporting.report_results] and [reporting.report_agents] are
    parameters; so is [Path.resolve]. *)
Variable about_data : string → string.
Variable agents : string → string.
Variable ENGINE_NAMES : Py.dict string string.
Variables (BLUE YELLOW NC : string).
Variable ReportIt : string → string → io unit.
Variable report_agents : string → io unit.
Variable resolve : string → string.
(** The engine classes of [search_engines], applied to a user agent. *)
Variables (Duckduckgo Metager Startpage Mojeek : string → Engine).

Definition FileIt := files.results2file.

Definition engines : Py.dict string Engine :=
  [("(DDG)", Duckduckgo (agents "(DDG)")); ("(MG)", Metager (agents "(MG)"));
   ("(SP)", Startpage (agents "(SP)")); ("(Moj)", Mojeek (agents "(Moj)"))].

(** The links, titles and details kept from one engine. *)
Definition kept (tag : string) (engine : Engine) (search_term : string)
  : list string * list string * list string :=
  if Py.str_in tag "(DDG), (MG)" then
    let results := engine search_term 1 in
    (Py.slice 0 30 (links results), Py.slice 0 30 (titles results),
     Py.slice 0 30 (text results))
  else
    let results := engine search_term 2 in
    (links results, titles results, text results).

Definition search_this (search_term : string) : io unit :=
  (combined_results <-
     for_each engines []
       (λ (combined_results : list (string * string * string))
          '((tag, engine) : string * Engine),
          let '(links, titles, details) := kept tag engine search_term in
          let titles := prepend_tag tag titles in
          let combined_results :=
            combined_results ++ zip (zip links titles) details in
          (name <- getitem tag ENGINE_NAMES ;;
           let e_count_msg :=
             "Keeping the first " +:+ Py.str_of_nat (length links)
             +:+ " results" +:+ " from " +:+ name in
           ReportIt search_term e_count_msg ;;
           io_ret combined_results)) ;;
   let unique_results := unique_results combined_results in
   let result_summary :=
     "Kept " +:+ Py.str_of_nat (length combined_results)
     +:+ " total results." +:+ Py.nl +:+ Py.nl
     +:+ "There are " +:+ Py.str_of_nat (length unique_results)
     +:+ " unique results." in
   ReportIt search_term result_summary ;;
   for_each ENGINE_NAMES tt
     (λ _ '((tag, engine) : string * string),
        let num_uniq := num_uniq tag unique_results in
        let uniq_msg :=
          Py.str_of_nat num_uniq +:+ " unique results retained from "
          +:+ engine +:+ " " +:+ tag in
        ReportIt search_term uniq_msg) ;;
   time_sleep 2 ;;
   for_each unique_results tt
     (λ _ '((_u, _t, _d) : string * string * string),
        let url := Py.nl +:+ BLUE +:+ _u in
        let title := Py.nl +:+ YELLOW +:+ _t +:+ NC in
        let detail := Py.nl +:+ _d in
        ReportIt search_term (url +:+ title +:+ detail)) ;;
   name <- FileIt search_term EmptyString ;;
   print (Py.nl +:+ "Results were written or appended to " +:+ name) ;;
   let ending_msg :=
     Py.nl +:+ Py.str_mul "=" 26 +:+ " END of "
     +:+ Py.str_of_nat (length unique_results) +:+ " results "
     +:+ Py.str_mul "=" 26 +:+ Py.nl in
   ReportIt search_term ending_msg).

(** [str(assist)]. *)
Definition str_of_assist (assist : option string) : string :=
  default "None" assist.

Definition parse_args (assist : option string) : io unit :=
  (args <- parser_parse_args argparse_help ;;
   (if about args then
      (print module_doc ;;
       print2 (Py.ljust 10 "Author:") (about_data "author") ;;
       print2 (Py.ljust 10 "License:") (about_data "license") ;;
       print2 (Py.ljust 10 "Copyright:") (about_data "copyright") ;;
       print2 (Py.ljust 10 "Program:") (about_data "program_name") ;;
       print2 (Py.ljust 10 "URL:") (about_data "project_url") ;;
       print2 (Py.ljust 10 "Version:") (about_data "version") ;;
       print2 (Py.ljust 10 "Dev Env:") (about_data "dev_environment") ;;
       print2 (Py.ljust 10 "Status:") (about_data "status") ;;
       print EmptyString ;;
       sys_exit 0)
    else io_ret tt) ;;
   if use args || Py.str_in (str_of_assist assist) "-help, --help" then
     (print ("USAGE: Run " +:+ module_file +:+ " without arguments,"
             +:+ " then enter your search term at the prompt." +:+ Py.nl) ;;
      let _use := resolve "aggregate_utils/use_syntax.txt" in
      try_except
        (syntax <- read_text _use ;;
         print syntax)
        is_FileNotFoundError
        (λ _, print ("Sorry, but could not find file: " +:+ _use)) ;;
      sys_exit 0)
   else io_ret tt).

(** [main] up to the first write to the report file; it hands on the
    local variable [term]. *)
Definition main_header : io string :=
  (parse_args None ;;
   term <- input (Py.nl +:+ "Enter search term: ") ;;
   let term := Py.lstrip term in
   print EmptyString ;;
   (if Py.str_in term "-help, --help, -h" then parse_args (Some term)
    else io_ret tt) ;;
   let term := Py.str_replace " " "+" term in
   stamp <- datetime_now ;;
   let file_header := "SEARCH TERM: " +:+ term +:+ "    TIME: " +:+ stamp in
   FileIt term (file_header +:+ Py.nl +:+ Py.nl) ;;
   io_ret term).

Definition main : io unit :=
  (term <- main_header ;;
   report_agents term ;;
   search_this term).

End program.

End aggregate_search.

(** ** The vocabulary of the statements *)

(** The last element of [l] whose key is [k], and the position of the first. *)
Definition last_with {A K} `{EqDecision K} (key : A → K) (k : K) (l : list A)
  : option A :=
  last (filter (λ x, key x = k) l).

Definition first_index {A K} `{EqDecision K} (key : A → K) (k : K) (l : list A)
  : option nat :=
  fst <$> list_find (λ x, key x = k) l.

(** What deduplication promises: one entry per key, holding the last
    occurrence of the key, at the rank of the first occurrence. *)
Record deduplicated {A K} `{EqDecision K} (key : A → K)
    (combined unique : list A) : Prop := Deduplicated {
  dedup_NoDup : NoDup (key <$> unique);
  dedup_keys : ∀ k, k ∈ key <$> unique ↔ k ∈ key <$> combined;
  dedup_last : ∀ r, r ∈ unique → last_with key (key r) combined = Some r;
  dedup_order : ∀ i j ri rj,
    unique !! i = Some ri → unique !! j = Some rj → i < j →
    ∃ pi pj, first_index key (key ri) combined = Some pi
             ∧ first_index key (key rj) combined = Some pj
             ∧ pi < pj
}.

(** The title holds exactly one of the engine tags. *)
Definition exactly_one_tag (tags : list string) (title : string) : Prop :=
  ∃ tag, tag ∈ tags ∧ Py.str_in tag title
         ∧ ∀ tag', tag' ∈ tags → Py.str_in tag' title → tag' = tag.

(** What holds of the dictionary [d] of a comprehension after the elements
    [l] have gone in. *)
Record comprehension_inv {A K} `{EqDecision K} (key : A → K)
    (l : list A) (d : Py.dict K A) : Prop := {
  inv_NoDup : NoDup (Py.keys d);
  inv_item : ∀ k v, (k, v) ∈ d → key v = k ∧ last_with key k l = Some v;
  inv_keys : ∀ k, k ∈ Py.keys d ↔ k ∈ key <$> l;
  inv_order : ∀ i j ki kj,
    Py.keys d !! i = Some ki → Py.keys d !! j = Some kj → i < j →
    ∃ pi pj, first_index key ki l = Some pi
             ∧ first_index key kj l = Some pj ∧ pi < pj
}.

(** The tags that [multi_search] looks for: [f'({tag})'] for the keys of
    [engine_names]. *)
Definition multi_search_tags : list string :=
  (λ tag, "(" +:+ tag +:+ ")") <$> Py.keys multi_search.engine_names.

(** The first line that [parse_args] prints when asked for the usage. *)
Definition usage_line (module_file : string) : string :=
  "USAGE: Run " +:+ module_file +:+ " without arguments,"
  +:+ " then enter your search term at the prompt." +:+ Py.nl.

(** What a limiter with cap [C] keeps of a list: its first [C] elements in
    their order when there are that many, and all of it otherwise. *)
Definition keeps_first {A} (C : nat) (results out : list A) : Prop :=
  (C ≤ length results → length out = C ∧ out `prefix_of` results)
  ∧ (length results < C → out = results).

(** The message with which [search_this] of [aggregate_search] reports how
    many results it keeps from one engine of [engines], once the name of
    the engine has been found. *)
Definition aggregate_count_message (ENGINE_NAMES : Py.dict string string)
    (search_term : string) (e : string * Engine) : string :=
  let '(links, _, _) := aggregate_search.kept (fst e) (snd e) search_term in
  "Keeping the first " +:+ Py.str_of_nat (length links) +:+ " results"
  +:+ " from " +:+ default EmptyString (Py.get (fst e) ENGINE_NAMES).

(** What a stretch of reporting may do to the world: print, and put text at
    the end of the report file. *)
Record only_reports (filename : string) (w w' : world) : Prop := {
  rep_argv : argv w' = argv w;
  rep_stdin : stdin w' = stdin w;
  rep_now : now w' = now w;
  rep_open_error : open_error w' = open_error w;
  rep_stdout : ∃ out, stdout w' = stdout w +:+ out;
  rep_others : ∀ path, path ≠ filename → files w' !! path = files w !! path;
  rep_file : ∀ old, files w !! filename = Some old →
                    ∃ more, files w' !! filename = Some (old +:+ more)
}.

(** The action returns whenever the report file can be opened, and all it
    does is reporting. *)
Definition reports {A} (filename : string) (m : io A) : Prop :=
  ∀ w, open_error w filename = None →
       ∃ a w', m w = (Return a, w') ∧ only_reports filename w w'.

(** The same, and the report file exists afterwards. *)
Definition reports_to_file {A} (filename : string) (m : io A) : Prop :=
  ∀ w, open_error w filename = None →
       ∃ a w', m w = (Return a, w') ∧ only_reports filename w w'
               ∧ is_Some (files w' !! filename).

(** ** Facts about [dict] *)

Section dict_facts.
Context {K V : Type} `{EqDecision K}.
Implicit Types (k : K) (v : V) (d : Py.dict K V).

Lemma keys_setitem_old k v d :
  k ∈ Py.keys d → Py.keys (Py.setitem k v d) = Py.keys d.
Proof.
  unfold Py.keys. induction d as [|[k' v'] d IH]; simpl; intros Hin.
  - by apply elem_of_nil in Hin.
  - destruct (decide (k' = k)) as [->|Hne]; simpl; [done|].
    apply elem_of_cons in Hin as [?|Hin]; [congruence|]. f_equal. by apply IH.
Qed.

Lemma keys_setitem_new k v d :
  k ∉ Py.keys d → Py.keys (Py.setitem k v d) = Py.keys d ++ [k].
Proof.
  unfold Py.keys. induction d as [|[k' v'] d IH]; simpl; intros Hnin; [done|].
  apply not_elem_of_cons in Hnin as [Hne Hnin].
  destruct (decide (k' = k)); simpl; [congruence|]. f_equal. by apply IH.
Qed.

Lemma NoDup_keys_setitem k v d :
  NoDup (Py.keys d) → NoDup (Py.keys (Py.setitem k v d)).
Proof.
  intros Hnd. destruct (decide (k ∈ Py.keys d)) as [Hin|Hnin].
  - by rewrite keys_setitem_old.
  - rewrite keys_setitem_new by done.
    apply NoDup_app. split_and!; [done | | apply NoDup_singleton].
    by intros x Hx ->%list_elem_of_singleton.
Qed.

(** The items after an assignment: the new one, and the old ones under the
    other keys. *)
Lemma elem_of_setitem k v d k' v' :
  NoDup (Py.keys d) →
  (k', v') ∈ Py.setitem k v d ↔ (k' = k ∧ v' = v) ∨ (k' ≠ k ∧ (k', v') ∈ d).
Proof.
  unfold Py.keys. induction d as [|[k0 v0] d IH]; simpl; intros Hnd.
  - rewrite list_elem_of_singleton. split.
    + intros [= -> ->]. by left.
    + intros [[-> ->]|[_ Hin]]; [done | by apply elem_of_nil in Hin].
  - apply NoDup_cons in Hnd as [Hk0 Hnd].
    destruct (decide (k0 = k)) as [->|Hne].
    + rewrite !elem_of_cons. split.
      * intros [[= -> ->]|Hin]; [by left|]. right. split; [|by right].
        intros ->. apply Hk0. apply list_elem_of_fmap. by exists (k, v').
      * intros [[-> ->]|[Hne [[= ? ?]|Hin]]]; [by left | done | by right].
    + rewrite !elem_of_cons, IH by done. split.
      * intros [[= -> ->]|[[-> ->]|[? ?]]]; [right | left | right]; eauto.
      * intros [[-> ->]|[? [[= -> ->]|?]]]; [right; left | left | right; right];
          eauto.
Qed.

End dict_facts.

(** ** Facts about the vocabulary *)

Section occurrences.
Context {A K : Type} `{EqDecision K} (key : A → K).
Implicit Types (l : list A) (k : K) (x : A).

Lemma last_with_snoc_eq l x : last_with key (key x) (l ++ [x]) = Some x.
Proof.
  unfold last_with. rewrite filter_app, filter_cons_True, filter_nil by done.
  apply last_snoc.
Qed.

Lemma last_with_snoc_ne l x k :
  key x ≠ k → last_with key k (l ++ [x]) = last_with key k l.
Proof.
  intros Hne. unfold last_with.
  by rewrite filter_app, filter_cons_False, filter_nil, app_nil_r.
Qed.

Lemma first_index_app_l l l' k p :
  first_index key k l = Some p → first_index key k (l ++ l') = Some p.
Proof.
  unfold first_index. intros Hp.
  destruct (list_find _ l) as [[i y]|] eqn:Hfind; simplify_eq/=.
  by erewrite list_find_app_l.
Qed.

Lemma first_index_lt l k p : first_index key k l = Some p → p < length l.
Proof.
  unfold first_index. intros Hp.
  destruct (list_find _ l) as [[i y]|] eqn:Hfind; simplify_eq/=.
  apply list_find_Some in Hfind as (Hi & _). by eapply lookup_lt_Some.
Qed.

Lemma first_index_is_Some l k :
  k ∈ key <$> l → is_Some (first_index key k l).
Proof.
  intros (x & -> & Hx)%list_elem_of_fmap. unfold first_index.
  destruct (list_find_elem_of (λ y, key y = key x) l x) as [[i y] Hfind];
    [done..|].
  rewrite Hfind. by eexists.
Qed.

Lemma first_index_snoc_new l x :
  key x ∉ key <$> l → first_index key (key x) (l ++ [x]) = Some (length l).
Proof.
  intros Hnew. unfold first_index.
  assert (list_find (λ y, key y = key x) l = None) as Hnone.
  { apply list_find_None, Forall_forall. intros y Hy Heq. apply Hnew.
    apply list_elem_of_fmap. by exists y. }
  rewrite list_find_app_r by done. simpl.
  rewrite decide_True by done. done.
Qed.

End occurrences.

(** ** The dictionary comprehension *)

Section comprehension.
Context {A K : Type} `{EqDecision K} (key : A → K).
Implicit Types (l : list A) (k : K) (x : A).

Lemma comprehension_snoc {V} (val : A → V) l x :
  Py.comprehension key val (l ++ [x])
  = Py.setitem (key x) (val x) (Py.comprehension key val l).
Proof. unfold Py.comprehension. by rewrite foldl_snoc. Qed.

Lemma comprehension_inv_nil : comprehension_inv key [] [].
Proof.
  split; simpl.
  - apply NoDup_nil_2.
  - intros k v Hin. by apply elem_of_nil in Hin.
  - done.
  - intros i j ki kj Hi. by rewrite lookup_nil in Hi.
Qed.

Lemma comprehension_inv_snoc l d x :
  comprehension_inv key l d →
  comprehension_inv key (l ++ [x]) (Py.setitem (key x) x d).
Proof.
  intros [Hnd Hitem Hkeys Horder]. split.
  - by apply NoDup_keys_setitem.
  - intros k v Hin.
    apply elem_of_setitem in Hin as [[-> ->]|[Hne Hin]]; [| |done].
    + split; [done | apply last_with_snoc_eq].
    + destruct (Hitem k v Hin) as [Hk Hlast]. split; [done|].
      rewrite last_with_snoc_ne; [done | congruence].
  - intros k. rewrite fmap_app, elem_of_app. simpl.
    rewrite list_elem_of_singleton, <-Hkeys.
    destruct (decide (key x ∈ Py.keys d)) as [Hin|Hnin].
    + rewrite keys_setitem_old by done. split; [by left|].
      by intros [?| ->].
    + rewrite keys_setitem_new, elem_of_app, list_elem_of_singleton by done.
      done.
  - intros i j ki kj Hi Hj Hlt.
    destruct (decide (key x ∈ Py.keys d)) as [Hin|Hnin].
    + rewrite keys_setitem_old in Hi, Hj by done.
      destruct (Horder i j ki kj Hi Hj Hlt) as (pi & pj & Hpi & Hpj & Hp).
      exists pi, pj. eauto using first_index_app_l.
    + rewrite keys_setitem_new in Hi, Hj by done.
      apply lookup_snoc_Some in Hj as [[Hjlt Hj]|[Hjeq <-]].
      * rewrite lookup_app_l in Hi by lia.
        destruct (Horder i j ki kj Hi Hj Hlt) as (pi & pj & Hpi & Hpj & Hp).
        exists pi, pj. eauto using first_index_app_l.
      * rewrite lookup_app_l in Hi by lia.
        assert (ki ∈ key <$> l) as Hki.
        { apply Hkeys. by eapply list_elem_of_lookup_2. }
        destruct (first_index_is_Some key l ki Hki) as [pi Hpi].
        exists pi, (length l). split_and!.
        -- by apply first_index_app_l.
        -- apply first_index_snoc_new. by rewrite <-Hkeys.
        -- by eapply first_index_lt.
Qed.

Lemma comprehension_inv_holds l :
  comprehension_inv key l (Py.comprehension key (λ x, x) l).
Proof.
  induction l as [|x l IH] using rev_ind.
  - apply comprehension_inv_nil.
  - rewrite comprehension_snoc. by apply comprehension_inv_snoc.
Qed.

Lemma comprehension_key_values l d :
  comprehension_inv key l d → key <$> Py.values d = Py.keys d.
Proof.
  intros [_ Hitem _ _]. unfold Py.values, Py.keys.
  induction d as [|[k v] d IH]; [done|]. simpl. f_equal.
  - apply (Hitem k v), list_elem_of_here.
  - apply IH. intros k' v' Hin. by apply Hitem, list_elem_of_further.
Qed.

(** The values of the comprehension are the deduplicated list. *)
Lemma comprehension_deduplicated l :
  deduplicated key l (Py.values (Py.comprehension key (λ x, x) l)).
Proof.
  pose proof (comprehension_inv_holds l) as Hinv.
  pose proof (comprehension_key_values l _ Hinv) as Hkv.
  destruct Hinv as [Hnd Hitem Hkeys Horder]. split.
  - by rewrite Hkv.
  - intros k. by rewrite Hkv.
  - intros r (kv & -> & Hin)%list_elem_of_fmap. destruct kv as [k v].
    destruct (Hitem k v Hin) as [<- Hlast]. done.
  - intros i j ri rj Hi Hj Hlt. apply (Horder i j); [| |done].
    + by rewrite <-Hkv, list_lookup_fmap, Hi.
    + by rewrite <-Hkv, list_lookup_fmap, Hj.
Qed.

End comprehension.

(** A key may be wrapped injectively without any effect on the values. *)
Section key_change.
Context {A K K' V : Type} `{EqDecision K, EqDecision K'}.
Context (f : K → K') `{!Inj (=) (=) f}.

Lemma setitem_wrap_key (k : K) (v : V) (d : Py.dict K V) :
  prod_map f id <$> Py.setitem k v d
  = Py.setitem (f k) v (prod_map f id <$> d).
Proof.
  induction d as [|[k' v'] d IH]; [done|]. cbn [Py.setitem].
  destruct (decide (k' = k)) as [->|Hne]; cbn.
  - by rewrite decide_True.
  - rewrite decide_False by (intros Heq; by apply Hne, (inj f)).
    cbn. by rewrite <-IH.
Qed.

Lemma comprehension_wrap_key (key : A → K) (key' : A → K') (val : A → V) l :
  (∀ x, key' x = f (key x)) →
  Py.comprehension key' val l
  = prod_map f id <$> Py.comprehension key val l.
Proof.
  intros Hkey. induction l as [|x l IH] using rev_ind; [done|].
  by rewrite !comprehension_snoc, setitem_wrap_key, IH, Hkey.
Qed.

Lemma values_wrap_key (d : Py.dict K V) :
  Py.values (prod_map f id <$> d) = Py.values d.
Proof.
  unfold Py.values. rewrite <-list_fmap_compose.
  apply list_fmap_ext. by intros i [k v] _.
Qed.

End key_change.

Global Instance Tuple1_inj {A} : Inj (=) (=) (@Py.Tuple1 A).
Proof. by intros x y [= ->]. Qed.

(** Both programs deduplicate alike. *)
Lemma multi_unique_results_alt {T} `{Py.Tuple T} (combined : list T) :
  multi_search.unique_results combined
  = aggregate_search.unique_results combined.
Proof.
  unfold multi_search.unique_results, aggregate_search.unique_results.
  rewrite (comprehension_wrap_key Py.Tuple1 (λ res, Py.item0 res))
    by apply Py.upto1_item0.
  apply values_wrap_key.
Qed.

Lemma aggregate_deduplicated {T} `{Py.Tuple T} (combined : list T) :
  deduplicated Py.item0 combined (aggregate_search.unique_results combined).
Proof. apply comprehension_deduplicated. Qed.

(** ** Counting with and without repetition *)

Section counting.
Context {A K : Type} `{EqDecision K} (key : A → K).

Lemma deduplicated_length_le combined unique :
  deduplicated key combined unique → length unique ≤ length combined.
Proof.
  intros [Hnd Hkeys _ _].
  rewrite <-(length_fmap key unique), <-(length_fmap key combined).
  apply submseteq_length, NoDup_submseteq; [done|].
  intros k. apply Hkeys.
Qed.

Lemma deduplicated_length_eq combined unique :
  deduplicated key combined unique →
  length unique = length combined ↔ NoDup (key <$> combined).
Proof.
  intros [Hnd Hkeys _ _].
  assert ((key <$> unique) ⊆+ (key <$> combined)) as Hsub.
  { apply NoDup_submseteq; [done|]. intros k. apply Hkeys. }
  split.
  - intros Hlen. eapply NoDup_Permutation_proper; [|exact Hnd].
    symmetry. apply submseteq_length_Permutation; [done|].
    rewrite !length_fmap. lia.
  - intros Hnd'. apply Nat.le_antisymm.
    + rewrite <-(length_fmap key unique), <-(length_fmap key combined).
      by apply submseteq_length.
    + rewrite <-(length_fmap key unique), <-(length_fmap key combined).
      apply submseteq_length, NoDup_submseteq; [done|].
      intros k. apply Hkeys.
Qed.

Lemma filter_key_absent (l : list A) k :
  k ∉ key <$> l → filter (λ r, key r = k) l = [].
Proof.
  induction l as [|x l IH]; [done|]. cbn [fmap list_fmap].
  intros [Hne Hnin]%not_elem_of_cons.
  rewrite filter_cons_False by done. by apply IH.
Qed.

Lemma NoDup_filter_key_length (l : list A) k :
  NoDup (key <$> l) → k ∈ key <$> l →
  length (filter (λ r, key r = k) l) = 1.
Proof.
  induction l as [|x l IH]; simpl; intros Hnd Hin.
  - by apply elem_of_nil in Hin.
  - apply NoDup_cons in Hnd as [Hx Hnd].
    destruct (decide (key x = k)) as [<-|Hne].
    + rewrite filter_cons_True, filter_key_absent by done. done.
    + rewrite filter_cons_False by done. apply IH; [done|].
      apply elem_of_cons in Hin as [?|?]; [congruence | done].
Qed.

End counting.

(** ** Facts about slices *)

Lemma slice_0_take {A} (stop : nat) (l : list A) :
  Py.slice 0 (Z.of_nat stop) l = take stop l.
Proof.
  unfold Py.slice, Py.slice_bound.
  replace (0 <? 0)%Z with false by done.
  replace (Z.of_nat stop <? 0)%Z with false by (symmetry; apply Z.ltb_ge; lia).
  replace (Z.to_nat (Z.min 0 (Z.of_nat (length l)))) with 0 by lia.
  rewrite drop_0. destruct (decide (stop ≤ length l)) as [Hle|Hgt].
  - f_equal. lia.
  - rewrite !take_ge by lia. done.
Qed.

(** ** Facts about the title tagger *)

Lemma prepend_tag_loop tag (seen todo : list string) :
  foldl (λ titles i,
           match titles !! i with
           | Some _title => <[i := tag +:+ " " +:+ _title]> titles
           | None => titles
           end)
        (seen ++ todo) (seq (length seen) (length todo))
  = seen ++ ((λ _title, tag +:+ " " +:+ _title) <$> todo).
Proof.
  revert seen. induction todo as [|t todo IH]; intros seen; [done|].
  cbn [length seq foldl].
  rewrite list_lookup_middle by done.
  replace (<[length seen := tag +:+ " " +:+ t]> (seen ++ t :: todo))
    with ((seen ++ [tag +:+ " " +:+ t]) ++ todo).
  2:{ rewrite <-(Nat.add_0_r (length seen)), insert_app_r. simpl.
      by rewrite <-app_assoc. }
  replace (S (length seen)) with (length (seen ++ [tag +:+ " " +:+ t]))
    by (rewrite length_app; simpl; lia).
  rewrite IH, <-app_assoc. done.
Qed.

Lemma prepend_tag_fmap tag (titles : list string) :
  prepend_tag tag titles = (λ _title, tag +:+ " " +:+ _title) <$> titles.
Proof. apply (prepend_tag_loop tag [] titles). Qed.

(** ** Facts about counting *)

Lemma sum_bool_foldl (bs : list bool) (n : nat) :
  foldl (λ acc (b : bool), acc + (if b then 1 else 0)) n bs
  = n + Py.sum_bool bs.
Proof.
  unfold Py.sum_bool. revert n.
  induction bs as [|b bs IH] using rev_ind; intros n; simpl; [lia|].
  rewrite !foldl_snoc, IH. lia.
Qed.

Lemma sum_bool_cons (b : bool) (bs : list bool) :
  Py.sum_bool (b :: bs) = (if b then 1 else 0) + Py.sum_bool bs.
Proof. unfold Py.sum_bool at 1. simpl. apply sum_bool_foldl. Qed.

Lemma sum_bool_filter {A} (p : A → bool) (l : list A) :
  Py.sum_bool (map p l) = length (filter (λ x, Is_true (p x)) l).
Proof.
  induction l as [|x l IH]; [done|].
  cbn [map]. rewrite sum_bool_cons, IH.
  destruct (p x) eqn:Hp.
  - rewrite filter_cons_True by (rewrite Hp; simpl; tauto). done.
  - rewrite filter_cons_False by (rewrite Hp; simpl; tauto). done.
Qed.

Lemma sum_indicator_zero (p : string → bool) (tags : list string) :
  (∀ tag, tag ∈ tags → p tag = false) →
  sum_list ((λ tag, if p tag then 1 else 0) <$> tags) = 0.
Proof.
  induction tags as [|t tags IH]; intros Hp; [done|].
  cbn [fmap list_fmap sum_list sum_list_with].
  rewrite (Hp t), IH; [done| |apply list_elem_of_here].
  intros tag Hin. by apply Hp, list_elem_of_further.
Qed.

(** A title that holds exactly one of the pairwise distinct tags is counted
    once over all tags. *)
Lemma one_tag_counted_once (tags : list string) (title : string) :
  NoDup tags →
  exactly_one_tag tags title →
  sum_list ((λ tag, if Py.str_in tag title then 1 else 0) <$> tags) = 1.
Proof.
  intros Hnd (tag & Hin & Htag & Huniq).
  induction tags as [|t tags IH]; [by apply elem_of_nil in Hin|].
  apply NoDup_cons in Hnd as [Ht Hnd].
  cbn [fmap list_fmap sum_list sum_list_with].
  destruct (decide (t = tag)) as [->|Hne].
  - destruct (Py.str_in tag title); [|done].
    rewrite sum_indicator_zero; [done|].
    intros t' Hin'. destruct (Py.str_in t' title) eqn:Ht'; [|done].
    exfalso. apply Ht. rewrite <-(Huniq t'); [done| |by rewrite Ht'].
    by apply list_elem_of_further.
  - apply elem_of_cons in Hin as [?|Hin]; [congruence|].
    destruct (Py.str_in t title) eqn:Ht'.
    + exfalso. apply Hne. apply Huniq; [apply list_elem_of_here|].
      by rewrite Ht'.
    + apply IH; [done..|].
      intros y Hy Hy'. apply Huniq; [|done].
      by apply list_elem_of_further.
Qed.

(** Summing the per-tag counts row by row. *)
Lemma sum_counts_swap {A} (p : string → A → bool) (tags : list string)
    (l : list A) :
  sum_list ((λ tag, length (filter (λ x, Is_true (p tag x)) l)) <$> tags)
  = sum_list ((λ x, sum_list ((λ tag, if p tag x then 1 else 0) <$> tags))
                <$> l).
Proof.
  induction l as [|x l IH].
  - cbn. induction tags as [|t tags IHt]; [done|]. cbn. by rewrite IHt.
  - cbn [fmap list_fmap sum_list sum_list_with]. rewrite <-IH. clear IH.
    induction tags as [|t tags IHt]; [done|].
    cbn [fmap list_fmap sum_list sum_list_with]. rewrite IHt.
    destruct (p t x) eqn:Hp.
    + rewrite filter_cons_True by (rewrite Hp; simpl; tauto). simpl. lia.
    + rewrite filter_cons_False by (rewrite Hp; simpl; tauto). simpl. lia.
Qed.

Lemma counts_sum_to_length {A} (title : A → string) (tags : list string)
    (l : list A) :
  NoDup tags →
  (∀ x, x ∈ l → exactly_one_tag tags (title x)) →
  sum_list ((λ tag, length (filter (λ x, Is_true (Py.str_in tag (title x))) l))
              <$> tags)
  = length l.
Proof.
  intros Hnd Hone. rewrite (sum_counts_swap (λ tag x, Py.str_in tag (title x))).
  induction l as [|x l IH]; [done|].
  cbn [fmap list_fmap sum_list sum_list_with length].
  rewrite one_tag_counted_once; [|done|apply Hone, list_elem_of_here].
  rewrite IH; [done|]. intros y Hy. by apply Hone, list_elem_of_further.
Qed.

(** ** Facts about strings *)

Lemma str_app_nil_r (s : string) : s +:+ EmptyString = s.
Proof.
  induction s as [|c s IH]; [done|].
  change (String c (s +:+ EmptyString) = String c s). by rewrite IH.
Qed.

Lemma str_app_assoc (s1 s2 s3 : string) :
  (s1 +:+ s2) +:+ s3 = s1 +:+ s2 +:+ s3.
Proof.
  induction s1 as [|c s1 IH]; [done|].
  change (String c ((s1 +:+ s2) +:+ s3) = String c (s1 +:+ s2 +:+ s3)).
  by rewrite IH.
Qed.

(** ** Facts about the report file *)

Lemma world_eta (w : world) :
  World (argv w) (stdin w) (stdout w) (now w) (files w) (open_error w) = w.
Proof. by destruct w. Qed.

Lemma results2file_run (search_txt data : string) (w : world) :
  files.results2file search_txt data w
  = match open_error w ("Results_" +:+ search_txt +:+ ".txt") with
    | Some e => (Raise e, w)
    | None =>
        (Return ("Results_" +:+ search_txt +:+ ".txt"),
         set_files
           (<["Results_" +:+ search_txt +:+ ".txt" :=
                default EmptyString
                  (files w !! ("Results_" +:+ search_txt +:+ ".txt"))
                +:+ data]> (files w)) w)
    end.
Proof.
  unfold files.results2file, io_bind, append_text, io_ret.
  by destruct (open_error w _).
Qed.

(** Whatever a call does, the text that a file held is still the beginning
    of what it holds afterwards. *)
Lemma results2file_keeps_text (search_txt data path old : string) (w : world) :
  files w !! path = Some old →
  ∃ more, files (snd (files.results2file search_txt data w)) !! path
          = Some (old +:+ more).
Proof.
  intros Hold. rewrite results2file_run.
  destruct (open_error w _) as [e|]; simpl.
  - exists EmptyString. by rewrite str_app_nil_r.
  - destruct (decide (path = "Results_" +:+ search_txt +:+ ".txt")) as [->|Hne].
    + rewrite lookup_insert_eq, Hold. simpl. by exists data.
    + rewrite lookup_insert_ne by done.
      exists EmptyString. by rewrite str_app_nil_r.
Qed.

(** ** Facts about the command line *)

Global Arguments Py.str_in : simpl never.
Global Arguments Py.str_replace : simpl never.
Global Arguments Py.lstrip : simpl never.

Lemma bool_decide_elem_of_cons (x y : cli_flag) (l : list cli_flag) :
  bool_decide (x ∈ y :: l) = bool_decide (x = y) || bool_decide (x ∈ l).
Proof.
  destruct (decide (x = y)) as [->|Hne].
  - rewrite (bool_decide_true (y ∈ y :: l)) by apply list_elem_of_here.
    by rewrite (bool_decide_true (y = y)).
  - rewrite (bool_decide_false (x = y)) by done. simpl.
    apply bool_decide_ext. rewrite elem_of_cons.
    split; [by intros [?|?] | by right].
Qed.

Lemma parser_parse_args_from_no_help help args ns w :
  FlagHelp ∉ args →
  parser_parse_args_from help args ns w
  = (Return (Namespace (about ns || bool_decide (FlagAbout ∈ args))
                       (use ns || bool_decide (FlagUse ∈ args))), w).
Proof.
  revert ns. induction args as [|flag args IH]; intros [a u] Hhelp; simpl.
  - by rewrite !orb_false_r.
  - apply not_elem_of_cons in Hhelp as [Hne Hhelp].
    rewrite !bool_decide_elem_of_cons.
    destruct flag; [| |done]; rewrite IH by done; simpl.
    + by rewrite orb_true_r.
    + by rewrite orb_true_r.
Qed.

Lemma parser_parse_args_no_help help w :
  FlagHelp ∉ argv w →
  parser_parse_args help w
  = (Return (Namespace (bool_decide (FlagAbout ∈ argv w))
                       (bool_decide (FlagUse ∈ argv w))), w).
Proof.
  intros Hhelp. unfold parser_parse_args.
  by rewrite parser_parse_args_from_no_help.
Qed.

Section aggregate_parse_args.
Variables (module_doc module_file argparse_help : string).
Variables (about_data resolve : string → string).

Let parse_args :=
  aggregate_search.parse_args module_doc module_file argparse_help
    about_data resolve.

(** No flag and no help word: [parse_args] returns and has printed nothing. *)
Lemma parse_args_passes assist w :
  argv w = [] →
  Py.str_in (aggregate_search.str_of_assist assist) "-help, --help" = false →
  parse_args assist w = (Return tt, w).
Proof.
  intros Hargv Hassist. unfold parse_args, aggregate_search.parse_args.
  unfold io_bind at 1.
  rewrite parser_parse_args_no_help by (rewrite Hargv; apply not_elem_of_nil).
  rewrite Hargv. simpl. unfold io_bind, io_ret. by rewrite Hassist.
Qed.

(** Asked for the usage text while the file is missing. *)
Lemma parse_args_usage_missing assist w :
  FlagHelp ∉ argv w → FlagAbout ∉ argv w →
  FlagUse ∈ argv w
  ∨ Py.str_in (aggregate_search.str_of_assist assist) "-help, --help" →
  files w !! resolve "aggregate_utils/use_syntax.txt" = None →
  parse_args assist w
  = (Raise (SystemExit 0),
     set_stdout
       (stdout w +:+ usage_line module_file +:+ Py.nl
        +:+ "Sorry, but could not find file: "
        +:+ resolve "aggregate_utils/use_syntax.txt" +:+ Py.nl) w).
Proof.
  intros Hhelp Habout Huse Hfile.
  unfold parse_args, aggregate_search.parse_args.
  unfold io_bind at 1. rewrite parser_parse_args_no_help by done.
  rewrite (bool_decide_false (FlagAbout ∈ _)) by done. cbn [about use].
  assert (bool_decide (FlagUse ∈ argv w)
          || Py.str_in (aggregate_search.str_of_assist assist) "-help, --help"
          = true) as ->.
  { destruct Huse as [Huse|Huse].
    - by rewrite bool_decide_true.
    - apply Is_true_true in Huse. rewrite Huse. apply orb_true_r. }
  unfold io_bind, io_ret, try_except, read_text, print, sys_exit, raise.
  simpl. rewrite Hfile. simpl. unfold usage_line.
  rewrite !str_app_assoc. done.
Qed.

End aggregate_parse_args.

(** * The properties *)

(** ** Deduplication *)

(** The example of the specification: engines A and B both return [x.com];
    B comes last, so its title is kept, at the rank where A put the url. *)
Example unique_results_x_com :
  aggregate_search.unique_results
    [("x.com", "(A) foo", "a"); ("y.com", "(A) baz", "a");
     ("x.com", "(B) bar", "b")]
  = [("x.com", "(B) bar", "b"); ("y.com", "(A) baz", "a")].
Proof. reflexivity. Qed.

(** C1.  For every list of [(url, title, detail)] tuples (and, in
    [multi_search], of [(url, title)] tuples) the deduplicated list holds
    exactly one entry per distinct url; the entry is the tuple of the last
    occurrence of the url in the combined list, and the entries stand in the
    order in which their urls first occur there. *)
Theorem unique_results_last_content_first_position :
  (∀ combined_results : list (string * string * string),
     deduplicated Py.item0 combined_results
       (aggregate_search.unique_results combined_results))
  ∧ (∀ combined_results : list (string * string),
       deduplicated Py.item0 combined_results
         (multi_search.unique_results combined_results)).
Proof.
  split; intros combined_results.
  - apply aggregate_deduplicated.
  - rewrite multi_unique_results_alt. apply aggregate_deduplicated.
Qed.

(** C2.  The deduplicated list is never longer than the combined list, it is
    as long exactly when the urls of the combined list are pairwise distinct,
    and every url of the combined list has exactly one result in it. *)
Theorem unique_results_length (combined_results : list (string * string * string)) :
  let unique_results := aggregate_search.unique_results combined_results in
  length unique_results ≤ length combined_results
  ∧ (length unique_results = length combined_results
     ↔ NoDup (Py.item0 <$> combined_results))
  ∧ (∀ url, url ∈ Py.item0 <$> combined_results →
       length (filter (λ res, Py.item0 res = url) unique_results) = 1).
Proof.
  pose proof (aggregate_deduplicated combined_results) as Hdedup.
  cbn zeta. split_and!.
  - by eapply deduplicated_length_le.
  - by apply deduplicated_length_eq.
  - intros url Hurl. apply NoDup_filter_key_length.
    + apply Hdedup.
    + by apply Hdedup.
Qed.

Lemma unique_results_length_witness :
  length (aggregate_search.unique_results
            [("x.com", "(A) foo", "a"); ("x.com", "(B) bar", "b")])
  ≤ 2
  ∧ length (filter (λ res, Py.item0 res = "x.com")
              (aggregate_search.unique_results
                 [("x.com", "(A) foo", "a"); ("x.com", "(B) bar", "b")]))
    = 1.
Proof.
  pose proof (unique_results_length
                [("x.com", "(A) foo", "a"); ("x.com", "(B) bar", "b")])
    as (Hle & _ & Hone).
  split; [exact Hle|]. apply Hone. apply list_elem_of_here.
Defined.

(** C9.  Keyed by [res[0]] as in [aggregate_search] or by [tup[:1]] as in
    [multi_search], deduplication retains the same results in the same
    order, for tuples of any length that start with the url. *)
Theorem unique_results_same_in_both_programs :
  ∀ (T : Type) (tuple : Py.Tuple T) (combined_results : list T),
    multi_search.unique_results combined_results
    = aggregate_search.unique_results combined_results.
Proof. intros T tuple combined_results. apply multi_unique_results_alt. Qed.

(** ** Counting per engine *)

(** C3.  When every title of the unique results holds exactly one engine
    tag, the per-engine counts add up to the number of unique results: for
    the keys of [ENGINE_NAMES] in [aggregate_search], and for the four tags
    of [multi_search]. *)
Theorem unique_counts_add_up :
  (∀ (ENGINE_NAMES : Py.dict string string)
     (unique_results : list (string * string * string)),
     NoDup (Py.keys ENGINE_NAMES) →
     (∀ res, res ∈ unique_results →
        exactly_one_tag (Py.keys ENGINE_NAMES) res.1.2) →
     sum_list ((λ tag, aggregate_search.num_uniq tag unique_results)
                 <$> Py.keys ENGINE_NAMES)
     = length unique_results)
  ∧ (∀ unique_results : list (string * string),
       (∀ hit, hit ∈ unique_results →
          exactly_one_tag multi_search_tags hit.2) →
       sum_list ((λ tag, multi_search.num_uniq_hit tag unique_results)
                   <$> multi_search_tags)
       = length unique_results).
Proof.
  split.
  - intros ENGINE_NAMES unique_results Hnd Hone.
    rewrite <-(counts_sum_to_length (λ res, res.1.2) (Py.keys ENGINE_NAMES)
                 unique_results) by done.
    f_equal. apply list_fmap_ext. intros i tag _.
    apply sum_bool_filter.
  - intros unique_results Hone.
    apply (counts_sum_to_length (λ hit : string * string, hit.2)); [|done].
    compute_done.
Qed.

Lemma unique_counts_add_up_witness :
  sum_list ((λ tag, aggregate_search.num_uniq tag
                      [("x.com", "(DDG) foo", "a"); ("y.com", "(MG) bar", "b")])
              <$> ["(DDG)"; "(MG)"])
  = 2.
Proof.
  destruct unique_counts_add_up as [Hagg _].
  apply (Hagg [("(DDG)", "DuckDuckGo"); ("(MG)", "MetaGer")]
              [("x.com", "(DDG) foo", "a"); ("y.com", "(MG) bar", "b")]).
  - compute_done.
  - intros res Hres.
    apply elem_of_cons in Hres as [->|Hres];
      [|apply list_elem_of_singleton in Hres as ->].
    + exists "(DDG)". split_and!; [compute_done | done |].
      intros tag' [->|Htag']%elem_of_cons; [done|].
      apply list_elem_of_singleton in Htag' as ->. by vm_compute.
    + exists "(MG)". split_and!; [compute_done | done |].
      intros tag' [->|Htag']%elem_of_cons; [by vm_compute|].
      by apply list_elem_of_singleton in Htag' as ->.
Defined.

(** ** The per-engine limiter *)

(** The capped engines of both programs keep the slice [[0:30]], or
    [[0:20]], of each list; the others keep the lists whole. *)
Lemma aggregate_kept_capped (tag : string) (engine : Engine) (term : string) :
  tag ∈ ["(DDG)"; "(MG)"] →
  aggregate_search.kept tag engine term
  = (take 30 (links (engine term 1)), take 30 (titles (engine term 1)),
     take 30 (text (engine term 1))).
Proof.
  intros Htag. unfold aggregate_search.kept.
  assert (Py.str_in tag "(DDG), (MG)" = true) as ->.
  { apply elem_of_cons in Htag as [->|Htag]; [done|].
    by apply list_elem_of_singleton in Htag as ->. }
  by rewrite !(slice_0_take 30).
Qed.

Lemma aggregate_kept_whole (tag : string) (engine : Engine) (term : string) :
  tag ∈ ["(SP)"; "(Moj)"] →
  aggregate_search.kept tag engine term
  = (links (engine term 2), titles (engine term 2), text (engine term 2)).
Proof.
  intros Htag. unfold aggregate_search.kept.
  assert (Py.str_in tag "(DDG), (MG)" = false) as ->; [|done].
  apply elem_of_cons in Htag as [->|Htag]; [done|].
  by apply list_elem_of_singleton in Htag as ->.
Qed.

Lemma multi_kept_capped (e_key : string) (engine : Engine) (term : string) :
  e_key ∈ ["DDG"; "MG"] →
  multi_search.kept e_key engine term
  = (take 20 (links (engine term 1)), take 20 (titles (engine term 1))).
Proof.
  intros Htag. unfold multi_search.kept.
  assert (Py.str_in e_key "DDG, MG" = true) as ->.
  { apply elem_of_cons in Htag as [->|Htag]; [done|].
    by apply list_elem_of_singleton in Htag as ->. }
  by rewrite !(slice_0_take 20).
Qed.

Lemma take_keeps_first {A} (C : nat) (results : list A) :
  keeps_first C results (take C results).
Proof.
  split.
  - intros Hle. split; [rewrite length_take; lia|].
    exists (drop C results). by rewrite take_drop.
  - intros Hlt. apply take_ge. lia.
Qed.

(** C4.  The limiter of both programs keeps, of every list of a capped
    engine, the first [C] elements in their order when the list has at least
    [C] elements and the whole list when it has fewer, with [C = 30] in
    [aggregate_search] and [C = 20] in [multi_search]; of 50 results with cap
    30 it keeps exactly the first 30.  The slice [results[0:C]] it is written
    with does so for every cap [C]. *)
Theorem limiter_keeps_first :
  (∀ (A : Type) (results : list A) (C : nat),
     keeps_first C results (Py.slice 0 (Z.of_nat C) results))
  ∧ (∀ (tag : string) (engine : Engine) (search_term : string),
       tag ∈ ["(DDG)"; "(MG)"] →
       let results := engine search_term 1 in
       let '(links', titles', details') :=
         aggregate_search.kept tag engine search_term in
       keeps_first 30 (links results) links'
       ∧ keeps_first 30 (titles results) titles'
       ∧ keeps_first 30 (text results) details'
       ∧ (length (links results) = 50 →
          length links' = 30
          ∧ ∀ i, i < 30 → links' !! i = links results !! i))
  ∧ (∀ (e_key : string) (engine : Engine) (search_term : string),
       e_key ∈ ["DDG"; "MG"] →
       let results := engine search_term 1 in
       let '(links', titles') :=
         multi_search.kept e_key engine search_term in
       keeps_first 20 (links results) links'
       ∧ keeps_first 20 (titles results) titles').
Proof.
  split_and!.
  - intros A results C. rewrite slice_0_take. apply take_keeps_first.
  - intros tag engine search_term Htag. cbn zeta.
    rewrite aggregate_kept_capped by done.
    split_and!; try apply take_keeps_first.
    intros Hlen. split; [rewrite length_take; lia|].
    intros i Hi. by apply lookup_take_lt.
  - intros e_key engine search_term Hkey. cbn zeta.
    rewrite multi_kept_capped by done.
    split; apply take_keeps_first.
Qed.

Lemma limiter_keeps_first_witness :
  let '(links', titles', details') :=
    aggregate_search.kept "(DDG)"
      (λ _ _, SearchResults (replicate 50 "url") (replicate 40 "title")
                (replicate 7 "detail"))
      "term" in
  length links' = 30 ∧ length titles' = 30 ∧ details' = replicate 7 "detail".
Proof.
  pose proof (proj1 (proj2 limiter_keeps_first) "(DDG)"
                (λ _ _, SearchResults (replicate 50 "url")
                          (replicate 40 "title") (replicate 7 "detail"))
                "term" ltac:(compute_done)) as Hkept.
  cbn zeta in Hkept.
  destruct (aggregate_search.kept _ _ _) as [[links' titles'] details'].
  destruct Hkept as ([Hlinks _] & [Htitles _] & [_ Hdetails] & _).
  split_and!.
  - apply Hlinks. vm_compute. lia.
  - apply Htitles. vm_compute. lia.
  - apply Hdetails. vm_compute. lia.
Defined.

(** ** The HTTP wrapper *)

Section http_client_facts.
Import http_client.
Variables (unquote_url quote_url decode_bytes : string → string).
Variable Data : Type.
Variable session_get : gmap string string → string → Z → result reply.
Variable session_post :
  gmap string string → string → Data → Z → result reply.

Local Abbreviation quoted := (_quote unquote_url quote_url decode_bytes).
Local Abbreviation client_get :=
  (get unquote_url quote_url decode_bytes session_get).
Local Abbreviation client_post :=
  (post unquote_url quote_url decode_bytes Data session_post).

(** C5.  A [RequestException] of the session never leaves [get] or [post]:
    they return the response with status 0 and the [__doc__] of the exception
    as html, and leave the client as it was. *)
Theorem HttpClient_catches_RequestException
    (self : HttpClient) (page : string) (data : Data) :
  (∀ cls doc,
     session_get (headers self) (quoted page) (timeout self)
     = Raised (RequestException cls doc) →
     client_get self page = (Ok (Response 0 doc), self))
  ∧ (∀ e, fst (client_get self page) = Raised e →
          ∀ cls doc, e ≠ RequestException cls doc)
  ∧ (∀ cls doc,
       session_post (headers self) (quoted page) data (timeout self)
       = Raised (RequestException cls doc) →
       client_post self page data = (Ok (Response 0 doc), self))
  ∧ (∀ e, fst (client_post self page data) = Raised e →
          ∀ cls doc, e ≠ RequestException cls doc).
Proof.
  unfold get, post. split_and!.
  - intros cls doc ->. done.
  - intros e He cls doc ->.
    destruct (session_get _ _ _) as [req|[cls' doc'|cls']]; by simplify_eq/=.
  - intros cls doc ->. done.
  - intros e He cls doc ->.
    destruct (session_post _ _ _ _) as [req|[cls' doc'|cls']];
      by simplify_eq/=.
Qed.

End http_client_facts.

Lemma HttpClient_catches_RequestException_witness :
  http_client.get id id id
    (λ _ _ _, http_client.Raised
                (http_client.RequestException "ConnectionError"
                   (Some "A Connection error occurred.")))
    (http_client.Client ∅ 10) "https://duckduckgo.com"
  = (http_client.Ok
       (http_client.Response 0 (Some "A Connection error occurred.")),
     http_client.Client ∅ 10).
Proof.
  pose proof (HttpClient_catches_RequestException id id id unit
                (λ _ _ _, http_client.Raised
                            (http_client.RequestException "ConnectionError"
                               (Some "A Connection error occurred.")))
                (λ _ _ _ _, http_client.Raised
                              (http_client.OtherException "ValueError"))
                (http_client.Client ∅ 10) "https://duckduckgo.com" tt)
    as (Hget & _).
  by apply (Hget "ConnectionError").
Defined.

(** ** The report file *)

(** C6.  Two calls of [results2file] for the same term put the second text
    after the first, behind whatever the file held, and touch no other
    file. *)
Theorem results2file_twice_appends
    (search_txt data1 data2 : string) (w : world) :
  let filename := "Results_" +:+ search_txt +:+ ".txt" in
  open_error w filename = None →
  ∃ w1 w2,
    files.results2file search_txt data1 w = (Return filename, w1)
    ∧ files.results2file search_txt data2 w1 = (Return filename, w2)
    ∧ files w2 !! filename
      = Some (default EmptyString (files w !! filename) +:+ data1 +:+ data2)
    ∧ ∀ path, path ≠ filename → files w2 !! path = files w !! path.
Proof.
  cbn zeta. intros Hopen. eexists _, _. split_and!.
  - rewrite results2file_run, Hopen. done.
  - rewrite results2file_run. simpl. rewrite Hopen. done.
  - simpl. rewrite !lookup_insert_eq. simpl. by rewrite str_app_assoc.
  - intros path Hne. simpl. by rewrite !lookup_insert_ne.
Qed.

Lemma results2file_twice_appends_witness :
  ∃ w1 w2,
    files.results2file "a+b" "one"
      (World [] [] EmptyString EmptyString {["Results_a+b.txt" := "zero"]}
         (λ _, None))
    = (Return "Results_a+b.txt", w1)
    ∧ files.results2file "a+b" "two" w1 = (Return "Results_a+b.txt", w2)
    ∧ files w2 !! "Results_a+b.txt" = Some "zeroonetwo".
Proof.
  destruct (results2file_twice_appends "a+b" "one" "two"
              (World [] [] EmptyString EmptyString
                 {["Results_a+b.txt" := "zero"]} (λ _, None)) eq_refl)
    as (w1 & w2 & H1 & H2 & H3 & _).
  exists w1, w2. split_and!; [exact H1 | exact H2 | exact H3].
Defined.

(** C10.  Writing the empty string changes nothing in a file that exists,
    makes an empty file where there was none, and returns what any other
    call for the term returns. *)
Theorem results2file_empty_data (search_txt : string) (w : world) :
  let filename := "Results_" +:+ search_txt +:+ ".txt" in
  (∀ data, fst (files.results2file search_txt EmptyString w)
           = fst (files.results2file search_txt data w))
  ∧ (∀ old, files w !! filename = Some old →
            snd (files.results2file search_txt EmptyString w) = w)
  ∧ (files w !! filename = None → open_error w filename = None →
     files.results2file search_txt EmptyString w
     = (Return filename,
        set_files (<[filename := EmptyString]> (files w)) w))
  ∧ (∀ e, open_error w filename = Some e →
          files.results2file search_txt EmptyString w = (Raise e, w)).
Proof.
  cbn zeta. split_and!.
  - intros data. rewrite !results2file_run. by destruct (open_error w _).
  - intros old Hold. rewrite results2file_run.
    destruct (open_error w _); [done|]. simpl.
    rewrite Hold. simpl. rewrite str_app_nil_r, insert_id by done.
    apply world_eta.
  - intros Hnone Hopen. rewrite results2file_run, Hopen, Hnone. done.
  - intros e Hopen. by rewrite results2file_run, Hopen.
Qed.

Lemma results2file_empty_data_witness :
  snd (files.results2file "a+b" EmptyString
         (World [] [] EmptyString EmptyString {["Results_a+b.txt" := "zero"]}
            (λ _, None)))
  = World [] [] EmptyString EmptyString {["Results_a+b.txt" := "zero"]}
      (λ _, None).
Proof.
  pose proof (results2file_empty_data "a+b"
                (World [] [] EmptyString EmptyString
                   {["Results_a+b.txt" := "zero"]} (λ _, None)))
    as (_ & Hsame & _).
  apply (Hsame "zero"). done.
Defined.

(** ** The command line and the name of the report file *)

(** A substring of a string is a substring of every extension of it. *)
Lemma prefix_app_r (sub s t : string) :
  String.prefix sub s = true → String.prefix sub (s +:+ t) = true.
Proof.
  revert sub. induction s as [|c s IH]; intros [|a sub] Hpre.
  - by destruct t.
  - done.
  - done.
  - change (String c s +:+ t) with (String c (s +:+ t)).
    simpl in *. destruct (ascii_dec a c); [by apply IH | done].
Qed.

Lemma str_in_app_r (sub s t : string) :
  Py.str_in sub s = true → Py.str_in sub (s +:+ t) = true.
Proof.
  induction s as [|c s IH].
  - destruct sub; [|done]. intros _. by destruct t.
  - change (String c s +:+ t) with (String c (s +:+ t)).
    cbn [Py.str_in]. intros [Hpre|Hin]%orb_true_iff; apply orb_true_iff.
    + left. by apply (prefix_app_r sub (String c s) t).
    + right. by apply IH.
Qed.

Section aggregate_main.
Variables (module_doc module_file argparse_help : string).
Variables (about_data agents : string → string).
Variable ENGINE_NAMES : Py.dict string string.
Variables (BLUE YELLOW NC : string).
Variable ReportIt : string → string → io unit.
Variable report_agents : string → io unit.
Variable resolve : string → string.
Variables (Duckduckgo Metager Startpage Mojeek : string → Engine).

Local Abbreviation parse_args :=
  (aggregate_search.parse_args module_doc module_file argparse_help
     about_data resolve).
Local Abbreviation main_header :=
  (aggregate_search.main_header module_doc module_file argparse_help
     about_data resolve).
Local Abbreviation main :=
  (aggregate_search.main module_doc module_file argparse_help about_data
     agents ENGINE_NAMES BLUE YELLOW NC ReportIt report_agents resolve
     Duckduckgo Metager Startpage Mojeek).

(** C7, as the code has it.  With [--use] and neither [--about] nor
    [--help] on the command line, or with a help word given as [assist],
    and no usage file, [parse_args] prints that it could not find the file
    and exits with status 0; so does the program when started with
    [--use]. *)
Theorem parse_args_reports_missing_usage_file
    (assist : option string) (w : world) :
  let _use := resolve "aggregate_utils/use_syntax.txt" in
  let printed :=
    stdout w +:+ usage_line module_file +:+ Py.nl
    +:+ "Sorry, but could not find file: " +:+ _use +:+ Py.nl in
  FlagHelp ∉ argv w → FlagAbout ∉ argv w →
  files w !! _use = None →
  (FlagUse ∈ argv w
   ∨ Py.str_in (aggregate_search.str_of_assist assist) "-help, --help" →
   parse_args assist w = (Raise (SystemExit 0), set_stdout printed w))
  ∧ (FlagUse ∈ argv w →
     run_main main w = (Raise (SystemExit 0), set_stdout printed w)
     ∧ exit_status (fst (run_main main w)) = 0%Z)
  ∧ (∀ entered rest,
       argv w = [] → stdin w = entered :: rest →
       Py.str_in (Py.lstrip entered) "-help, --help" →
       ∃ w', run_main main w = (Raise (SystemExit 0), w')
             ∧ stdout w'
               = (stdout w +:+ Py.nl +:+ "Enter search term: ") +:+ Py.nl
                 +:+ usage_line module_file +:+ Py.nl
                 +:+ "Sorry, but could not find file: " +:+ _use +:+ Py.nl
             ∧ exit_status (fst (run_main main w)) = 0%Z).
Proof.
  cbn zeta. intros Hhelp Habout Hfile. split_and!.
  - intros Huse. by apply parse_args_usage_missing.
  - intros Huse.
    assert (run_main main w
            = (Raise (SystemExit 0),
               set_stdout
                 (stdout w +:+ usage_line module_file +:+ Py.nl
                  +:+ "Sorry, but could not find file: "
                  +:+ resolve "aggregate_utils/use_syntax.txt" +:+ Py.nl) w))
      as Hrun.
    { unfold run_main, try_except, aggregate_search.main,
        aggregate_search.main_header.
      unfold io_bind at 1. unfold io_bind at 1. unfold io_bind at 1.
      rewrite (parse_args_usage_missing module_doc module_file argparse_help
                 about_data resolve None w) by auto.
      done. }
    by rewrite Hrun.
  - intros entered rest Hargv Hstdin Hword.
    assert (∃ w', run_main main w = (Raise (SystemExit 0), w')
                  ∧ stdout w'
                    = (stdout w +:+ Py.nl +:+ "Enter search term: ")
                      +:+ Py.nl +:+ usage_line module_file +:+ Py.nl
                      +:+ "Sorry, but could not find file: "
                      +:+ resolve "aggregate_utils/use_syntax.txt" +:+ Py.nl)
      as (w' & Hrun & Hout); [|exists w'; by rewrite Hrun].
    unfold run_main, try_except, aggregate_search.main,
      aggregate_search.main_header.
    unfold io_bind at 1. unfold io_bind at 1. unfold io_bind at 1.
    rewrite (parse_args_passes module_doc module_file argparse_help
               about_data resolve None w) by done.
    unfold io_bind at 1. unfold input. rewrite Hstdin.
    unfold io_bind at 1. unfold print at 1.
    unfold io_bind at 1.
    set (w2 := set_stdout _ (set_stdin _ _)).
    assert (Py.str_in (Py.lstrip entered) "-help, --help, -h" = true) as ->.
    { apply (str_in_app_r _ "-help, --help" ", -h"). by apply Is_true_true. }
    rewrite (parse_args_usage_missing module_doc module_file argparse_help
               about_data resolve (Some (Py.lstrip entered)) w2);
      [|subst w2; simpl; rewrite Hargv; apply not_elem_of_nil..
       |by right|done].
    eexists. split; [done|].
    subst w2. simpl. by rewrite !str_app_assoc.
Qed.

(** C8, as the code has it.  Started without flags, [main] strips the
    leading whitespace of the entered term; unless what is left is a
    substring of ['-help, --help'], it replaces every space that is left by
    [+] and writes the header to [Results_<term>.txt]; every call of
    [results2file] for that term that opens the file returns this name. *)
Theorem aggregate_report_file_name
    (entered : string) (rest : list string) (w : world) :
  let term := Py.str_replace " " "+" (Py.lstrip entered) in
  let filename := "Results_" +:+ term +:+ ".txt" in
  argv w = [] → stdin w = entered :: rest →
  Py.str_in (Py.lstrip entered) "-help, --help" = false →
  open_error w filename = None →
  (∃ w', main_header w = (Return term, w')
         ∧ files w'
           = <[filename :=
                 default EmptyString (files w !! filename)
                 +:+ "SEARCH TERM: " +:+ term +:+ "    TIME: " +:+ now w
                 +:+ Py.nl +:+ Py.nl]> (files w))
  ∧ (∀ data w0, open_error w0 filename = None →
                fst (files.results2file term data w0) = Return filename).
Proof.
  cbn zeta. intros Hargv Hstdin Hterm Hopen. split.
  - unfold aggregate_search.main_header.
    unfold io_bind at 1.
    rewrite (parse_args_passes module_doc module_file argparse_help
               about_data resolve None w) by done.
    unfold io_bind at 1. unfold input. rewrite Hstdin.
    unfold io_bind at 1. unfold print at 1.
    unfold io_bind at 1.
    set (w2 := set_stdout _ (set_stdin _ _)).
    assert ((if Py.str_in (Py.lstrip entered) "-help, --help, -h"
             then parse_args (Some (Py.lstrip entered))
             else io_ret ()) w2 = (Return (), w2)) as ->.
    { destruct (Py.str_in _ "-help, --help, -h"); [|done].
      by apply parse_args_passes. }
    unfold io_bind at 1. unfold datetime_now.
    unfold io_bind at 1. unfold aggregate_search.FileIt.
    rewrite results2file_run.
    change (open_error w2) with (open_error w). rewrite Hopen.
    eexists. split; [done|]. simpl. by rewrite !str_app_assoc.
  - intros data w0 Hopen0. by rewrite results2file_run, Hopen0.
Qed.

End aggregate_main.

(** C7, as the specification has it, fails: with [--about] before [--use]
    the description is printed and the program leaves before it looks for
    the usage file, and [--help] is answered by [argparse] itself; neither
    run mentions the missing file. *)
Lemma parse_args_about_or_help_skips_usage_file :
  (∃ w',
     aggregate_search.parse_args "doc" "aggregate_search.py" "help"
       (λ _, EmptyString) id None
       (World [FlagAbout; FlagUse] [] EmptyString EmptyString ∅ (λ _, None))
     = (Raise (SystemExit 0), w')
     ∧ Py.str_in "could not find file" (stdout w') = false)
  ∧ (∃ w',
       aggregate_search.parse_args "doc" "aggregate_search.py" "help"
         (λ _, EmptyString) id None
         (World [FlagHelp] [] EmptyString EmptyString ∅ (λ _, None))
       = (Raise (SystemExit 0), w')
       ∧ Py.str_in "could not find file" (stdout w') = false).
Proof. split; eexists; split; by vm_compute. Qed.

(** C8, as the specification has it, fails: the entered term [" a"] goes to
    [Results_a.txt], not to [Results_+a.txt]; and for the entered term
    [" help"], a help word once it is stripped, the program prints the usage
    and leaves with status 0 before it writes any file. *)
Lemma aggregate_report_file_name_leading_space :
  (∃ w',
     aggregate_search.main_header "doc" "aggregate_search.py" "help"
       (λ _, EmptyString) id
       (World [] [" a"] EmptyString "now" ∅ (λ _, None))
     = (Return "a", w')
     ∧ files w' !! "Results_a.txt"
       = Some ("SEARCH TERM: a    TIME: now" +:+ Py.nl +:+ Py.nl)
     ∧ "Results_" +:+ Py.str_replace " " "+" " a" +:+ ".txt"
       = "Results_+a.txt"
     ∧ files w' !! "Results_+a.txt" = None)
  ∧ (∃ w',
       aggregate_search.main_header "doc" "aggregate_search.py" "help"
         (λ _, EmptyString) id
         (World [] [" help"] EmptyString "now" ∅ (λ _, None))
       = (Raise (SystemExit 0), w')
       ∧ Py.str_in " help" "-help, --help" = false
       ∧ files w' = ∅).
Proof. split; eexists; split_and!; by vm_compute. Qed.

Lemma parse_args_reports_missing_usage_file_witness :
  aggregate_search.parse_args "doc" "aggregate_search.py" "help"
    (λ _, EmptyString) id None
    (World [FlagUse] [] EmptyString EmptyString ∅ (λ _, None))
  = (Raise (SystemExit 0),
     set_stdout
       (EmptyString +:+ usage_line "aggregate_search.py" +:+ Py.nl
        +:+ "Sorry, but could not find file: "
        +:+ "aggregate_utils/use_syntax.txt" +:+ Py.nl)
       (World [FlagUse] [] EmptyString EmptyString ∅ (λ _, None))).
Proof.
  pose proof (parse_args_reports_missing_usage_file "doc"
                "aggregate_search.py" "help" (λ _, EmptyString) id
                [] EmptyString EmptyString EmptyString
                (λ _ _, io_ret tt) (λ _, io_ret tt) id
                (λ _ _ _, SearchResults [] [] [])
                (λ _ _ _, SearchResults [] [] [])
                (λ _ _ _, SearchResults [] [] [])
                (λ _ _ _, SearchResults [] [] []) None
                (World [FlagUse] [] EmptyString EmptyString ∅ (λ _, None)))
    as Hthm.
  cbn zeta in Hthm.
  destruct Hthm as [Hparse _]; [compute_done | compute_done | done |].
  apply Hparse. left. compute_done.
Defined.

Lemma aggregate_report_file_name_witness :
  ∃ w',
    aggregate_search.main_header "doc" "aggregate_search.py" "help"
      (λ _, EmptyString) id
      (World [] [" two words"] EmptyString "now" ∅ (λ _, None))
    = (Return "two+words", w')
    ∧ files w'
      = <["Results_two+words.txt" :=
            EmptyString +:+ "SEARCH TERM: " +:+ "two+words" +:+ "    TIME: "
            +:+ "now" +:+ Py.nl +:+ Py.nl]> ∅.
Proof.
  destruct (aggregate_report_file_name "doc" "aggregate_search.py" "help"
              (λ _, EmptyString) id " two words" []
              (World [] [" two words"] EmptyString "now" ∅ (λ _, None))
              eq_refl eq_refl eq_refl eq_refl)
    as [Hmain _].
  exact Hmain.
Defined.

(** ** Further properties of the pipeline *)

(** X1.  The title tagger puts the tag and a blank before every title, in
    place and in order. *)
Theorem prepend_tag_prefixes_every_title (tag : string) (titles : list string) :
  prepend_tag tag titles = (λ _title, tag +:+ " " +:+ _title) <$> titles
  ∧ length (prepend_tag tag titles) = length titles.
Proof.
  rewrite prepend_tag_fmap. split; [done | apply length_fmap].
Qed.

(** X2.  Which engines are capped: [aggregate_search] keeps the first 30
    results of one page of DuckDuckGo and MetaGer and all results of two
    pages of Startpage and Mojeek; [multi_search] caps the same two engines
    at 20. *)
Theorem engines_kept (engine : Engine) (term : string) :
  let one := engine term 1 in
  let two := engine term 2 in
  aggregate_search.kept "(DDG)" engine term
  = (take 30 (links one), take 30 (titles one), take 30 (text one))
  ∧ aggregate_search.kept "(MG)" engine term
    = (take 30 (links one), take 30 (titles one), take 30 (text one))
  ∧ aggregate_search.kept "(SP)" engine term
    = (links two, titles two, text two)
  ∧ aggregate_search.kept "(Moj)" engine term
    = (links two, titles two, text two)
  ∧ multi_search.kept "DDG" engine term
    = (take 20 (links one), take 20 (titles one))
  ∧ multi_search.kept "MG" engine term
    = (take 20 (links one), take 20 (titles one))
  ∧ multi_search.kept "Moj" engine term = (links two, titles two)
  ∧ multi_search.kept "SP" engine term = (links two, titles two).
Proof.
  cbn zeta. split_and!.
  - apply aggregate_kept_capped. compute_done.
  - apply aggregate_kept_capped. compute_done.
  - apply aggregate_kept_whole. compute_done.
  - apply aggregate_kept_whole. compute_done.
  - apply multi_kept_capped. compute_done.
  - apply multi_kept_capped. compute_done.
  - done.
  - done.
Qed.

(** X3.  Whatever a call of [results2file] does, also when the file cannot
    be opened, every file still begins with the text it held. *)
Theorem results2file_never_truncates
    (search_txt data path old : string) (w : world) :
  files w !! path = Some old →
  ∃ more, files (snd (files.results2file search_txt data w)) !! path
          = Some (old +:+ more).
Proof. apply results2file_keeps_text. Qed.

Lemma results2file_never_truncates_witness :
  ∃ more,
    files (snd (files.results2file "a+b" "one"
                  (World [] [] EmptyString EmptyString
                     {["Results_a+b.txt" := "zero"]}
                     (λ _, Some (OSError "Results_a+b.txt")))))
    !! "Results_a+b.txt"
    = Some ("zero" +:+ more).
Proof.
  apply (results2file_never_truncates "a+b" "one" "Results_a+b.txt" "zero").
  done.
Defined.

Section multi_main.
Variables (module_doc module_file argparse_help : string).
Variables (dgg_UA sp_UA moj_UA mg_UA : string).

Local Abbreviation parse_args :=
  (multi_search.parse_args module_doc module_file argparse_help).
Local Abbreviation main_header :=
  (multi_search.main_header module_doc module_file argparse_help
     dgg_UA sp_UA moj_UA mg_UA).
Local Abbreviation user_agents_used :=
  (multi_search.user_agents_used dgg_UA sp_UA moj_UA mg_UA).

Lemma multi_parse_args_passes w :
  argv w = [] → parse_args w = (Return tt, w).
Proof.
  intros Hargv. unfold multi_search.parse_args.
  unfold io_bind at 1.
  rewrite parser_parse_args_no_help by (rewrite Hargv; apply not_elem_of_nil).
  rewrite Hargv. done.
Qed.

Lemma multi_main_header_run
    (entered : string) (rest : list string) (w : world) :
  argv w = [] → stdin w = entered :: rest →
  open_error w ("Results_" +:+ Py.str_replace " " "+" entered +:+ ".txt")
  = None →
  ∃ w', main_header w = (Return (Py.str_replace " " "+" entered), w')
        ∧ stdin w' = rest ∧ open_error w' = open_error w
        ∧ files w'
          = <["Results_" +:+ Py.str_replace " " "+" entered +:+ ".txt" :=
                (default EmptyString
                   (files w !! ("Results_"
                                +:+ Py.str_replace " " "+" entered
                                +:+ ".txt"))
                 +:+ "SEARCH TERM: " +:+ Py.str_replace " " "+" entered
                 +:+ "    TIME: " +:+ now w +:+ Py.nl +:+ Py.nl)
                +:+ user_agents_used +:+ Py.nl]> (files w).
Proof.
  intros Hargv Hstdin Hopen.
  unfold multi_search.main_header.
  unfold io_bind at 1. rewrite multi_parse_args_passes by done.
  unfold io_bind at 1. unfold input. rewrite Hstdin.
  unfold io_bind at 1. unfold print at 1.
  unfold io_bind at 1. unfold datetime_now.
  unfold io_bind at 1. unfold multi_search.FileIt.
  rewrite results2file_run. simpl. rewrite Hopen.
  unfold io_bind at 1. rewrite results2file_run. simpl. rewrite Hopen.
  eexists. split_and!; [done..|]. simpl.
  rewrite lookup_insert_eq, insert_insert_eq. simpl.
  by rewrite !str_app_assoc.
Qed.

(** X4.  [multi_search] replaces every space of the entered term by [+],
    nothing else, and writes its two headers to [Results_<term>.txt]. *)
Theorem multi_report_file_name
    (entered : string) (rest : list string) (w : world) :
  let term := Py.str_replace " " "+" entered in
  let filename := "Results_" +:+ term +:+ ".txt" in
  argv w = [] → stdin w = entered :: rest →
  open_error w filename = None →
  ∃ w', main_header w = (Return term, w')
        ∧ files w'
          = <[filename :=
                (default EmptyString (files w !! filename)
                 +:+ "SEARCH TERM: " +:+ term +:+ "    TIME: " +:+ now w
                 +:+ Py.nl +:+ Py.nl)
                +:+ user_agents_used +:+ Py.nl]> (files w).
Proof.
  cbn zeta. intros Hargv Hstdin Hopen.
  destruct (multi_main_header_run entered rest w Hargv Hstdin Hopen)
    as (w' & Hrun & _ & _ & Hfiles).
  by exists w'.
Qed.

End multi_main.

Lemma multi_report_file_name_witness :
  ∃ w',
    multi_search.main_header "doc" "multi_search.py" "help" "a" "b" "c" "d"
      (World [] [" a"] EmptyString "now" ∅ (λ _, None))
    = (Return "+a", w')
    ∧ files w'
      = <["Results_+a.txt" :=
            (EmptyString +:+ "SEARCH TERM: " +:+ "+a" +:+ "    TIME: "
             +:+ "now" +:+ Py.nl +:+ Py.nl)
            +:+ multi_search.user_agents_used "a" "b" "c" "d" +:+ Py.nl]> ∅.
Proof.
  exact (multi_report_file_name "doc" "multi_search.py" "help" "a" "b" "c" "d"
           " a" []
           (World [] [" a"] EmptyString "now" ∅ (λ _, None))
           eq_refl eq_refl eq_refl).
Defined.

(** ** More about deduplication *)

Section comprehension_steps.
Context {A K : Type} `{EqDecision K} (key : A → K).
Implicit Types (l : list A) (x : A) (d : Py.dict K A).

Lemma setitem_new k (v : A) d :
  k ∉ Py.keys d → Py.setitem k v d = d ++ [(k, v)].
Proof.
  unfold Py.keys. induction d as [|[k' v'] d IH]; [done|].
  cbn [fmap list_fmap fst]. intros [Hne Hnin]%not_elem_of_cons.
  cbn [Py.setitem]. rewrite decide_False by done.
  cbn. f_equal. by apply IH.
Qed.

Lemma setitem_app_r k (v : A) d d' :
  k ∉ Py.keys d → Py.setitem k v (d ++ d') = d ++ Py.setitem k v d'.
Proof.
  unfold Py.keys. induction d as [|[k' v'] d IH]; [done|].
  cbn [fmap list_fmap fst]. intros [Hne Hnin]%not_elem_of_cons.
  cbn [app Py.setitem]. rewrite decide_False by done.
  f_equal. by apply IH.
Qed.

(** An assignment to a key that is there changes the value under it, where
    it stands. *)
Lemma values_setitem_old l d x :
  comprehension_inv key l d → key x ∈ Py.keys d →
  Py.values (Py.setitem (key x) x d)
  = (λ r, if decide (key r = key x) then x else r) <$> Py.values d.
Proof.
  intros [Hnd Hitem _ _]. unfold Py.keys, Py.values in *.
  induction d as [|[k v] d IH]; intros Hin; [by apply elem_of_nil in Hin|].
  assert (key v = k) as Hk by apply (Hitem k v), list_elem_of_here.
  apply NoDup_cons in Hnd as [Hk' Hnd]. cbn [Py.setitem].
  destruct (decide (k = key x)) as [->|Hne].
  - cbn. rewrite decide_True by done. f_equal.
    rewrite <-(list_fmap_id (d.*2)) at 1.
    apply list_fmap_ext. intros i r Hr.
    rewrite decide_False; [done|]. intros Hkey. apply Hk'.
    apply list_elem_of_lookup_2 in Hr.
    apply list_elem_of_fmap in Hr as ([k' r'] & -> & Hr). simpl in *.
    destruct (Hitem k' r') as [Hk'' _]; [by apply list_elem_of_further|].
    apply list_elem_of_fmap. exists (k', r'). split; [|done].
    simpl. congruence.
  - cbn. rewrite decide_False by congruence. f_equal.
    apply IH; [done| |].
    + intros k' v' Hin'. by apply Hitem, list_elem_of_further.
    + cbn in Hin. apply elem_of_cons in Hin as [?|?]; [congruence|done].
Qed.

Lemma comprehension_app_new l1 l2 :
  (∀ k, k ∈ key <$> l1 → k ∉ key <$> l2) →
  Py.comprehension key (λ x, x) (l1 ++ l2)
  = Py.comprehension key (λ x, x) l1 ++ Py.comprehension key (λ x, x) l2.
Proof.
  intros Hnew. induction l2 as [|x l2 IH] using rev_ind.
  - by rewrite !app_nil_r.
  - rewrite app_assoc, !comprehension_snoc, IH.
    + apply setitem_app_r.
      rewrite (inv_keys key l1 _ (comprehension_inv_holds key l1)).
      intros Hin. apply (Hnew _ Hin). rewrite fmap_app, elem_of_app.
      right. apply list_elem_of_here.
    + intros k Hin Hin2. apply (Hnew k Hin).
      rewrite fmap_app, elem_of_app. by left.
Qed.

Lemma comprehension_NoDup l :
  NoDup (key <$> l) →
  Py.values (Py.comprehension key (λ x, x) l) = l.
Proof.
  induction l as [|x l IH] using rev_ind; [done|].
  rewrite fmap_app. intros (Hnd & Hnew & _)%NoDup_app.
  rewrite comprehension_snoc, setitem_new.
  - unfold Py.values in *. rewrite fmap_app, IH by done. done.
  - rewrite (inv_keys key l _ (comprehension_inv_holds key l)).
    intros Hin. apply (Hnew _ Hin), list_elem_of_here.
Qed.

End comprehension_steps.

Lemma aggregate_unique_results_snoc {T} `{Py.Tuple T} (l : list T) (x : T) :
  aggregate_search.unique_results (l ++ [x])
  = if decide (Py.item0 x ∈ Py.item0 <$> l)
    then (λ r, if decide (Py.item0 r = Py.item0 x) then x else r)
           <$> aggregate_search.unique_results l
    else aggregate_search.unique_results l ++ [x].
Proof.
  unfold aggregate_search.unique_results.
  pose proof (comprehension_inv_holds Py.item0 l) as Hinv.
  rewrite comprehension_snoc. case_decide as Hin.
  - apply (values_setitem_old Py.item0 l); [done|].
    by apply (inv_keys _ _ _ Hinv).
  - rewrite setitem_new; [by unfold Py.values; rewrite fmap_app|].
    by rewrite (inv_keys _ _ _ Hinv).
Qed.

(** X5.  One more result changes the deduplicated list in one of two ways:
    a new url is added at the end; a url that is there keeps its place and
    takes the new content.  Both programs. *)
Theorem unique_results_one_more :
  ∀ (T : Type) (tuple : Py.Tuple T) (combined_results : list T) (res : T),
    let step unique_results :=
      if decide (Py.item0 res ∈ Py.item0 <$> combined_results)
      then (λ r, if decide (Py.item0 r = Py.item0 res) then res else r)
             <$> unique_results
      else unique_results ++ [res] in
    aggregate_search.unique_results (combined_results ++ [res])
    = step (aggregate_search.unique_results combined_results)
    ∧ multi_search.unique_results (combined_results ++ [res])
      = step (multi_search.unique_results combined_results).
Proof.
  intros T tuple combined_results res. cbn zeta.
  rewrite !multi_unique_results_alt. split; apply aggregate_unique_results_snoc.
Qed.

(** X6.  A combined list whose urls are pairwise distinct is returned as it
    is, by both programs. *)
Theorem unique_results_of_distinct_urls :
  ∀ (T : Type) (tuple : Py.Tuple T) (combined_results : list T),
    NoDup (Py.item0 <$> combined_results) →
    aggregate_search.unique_results combined_results = combined_results
    ∧ multi_search.unique_results combined_results = combined_results.
Proof.
  intros T tuple combined_results Hnd. rewrite multi_unique_results_alt.
  split; by apply comprehension_NoDup.
Qed.

Lemma unique_results_of_distinct_urls_witness :
  aggregate_search.unique_results
    [("x.com", "(DDG) foo", "a"); ("y.com", "(MG) bar", "b")]
  = [("x.com", "(DDG) foo", "a"); ("y.com", "(MG) bar", "b")]
  ∧ multi_search.unique_results
      [("x.com", "(DDG) foo", "a"); ("y.com", "(MG) bar", "b")]
    = [("x.com", "(DDG) foo", "a"); ("y.com", "(MG) bar", "b")].
Proof.
  apply (unique_results_of_distinct_urls (string * string * string) _
           [("x.com", "(DDG) foo", "a"); ("y.com", "(MG) bar", "b")]).
  compute_done.
Defined.

(** X7.  Deduplicating twice is deduplicating once, in both programs. *)
Theorem unique_results_idempotent :
  ∀ (T : Type) (tuple : Py.Tuple T) (combined_results : list T),
    aggregate_search.unique_results
      (aggregate_search.unique_results combined_results)
    = aggregate_search.unique_results combined_results
    ∧ multi_search.unique_results
        (multi_search.unique_results combined_results)
      = multi_search.unique_results combined_results.
Proof.
  intros T tuple combined_results. rewrite !multi_unique_results_alt.
  split; apply comprehension_NoDup, (aggregate_deduplicated combined_results).
Qed.

(** X8.  When no url of the later results occurs among the earlier ones, the
    results of the two parts are deduplicated apart and put one after the
    other; an engine without results changes nothing. *)
Theorem unique_results_of_new_urls :
  ∀ (T : Type) (tuple : Py.Tuple T) (earlier later : list T),
    (∀ url, url ∈ Py.item0 <$> earlier → url ∉ Py.item0 <$> later) →
    aggregate_search.unique_results (earlier ++ later)
    = aggregate_search.unique_results earlier
      ++ aggregate_search.unique_results later
    ∧ multi_search.unique_results (earlier ++ later)
      = multi_search.unique_results earlier
        ++ multi_search.unique_results later.
Proof.
  intros T tuple earlier later Hnew. rewrite !multi_unique_results_alt.
  unfold aggregate_search.unique_results, Py.values.
  by rewrite (comprehension_app_new Py.item0 earlier later), fmap_app.
Qed.

Lemma unique_results_of_new_urls_witness :
  aggregate_search.unique_results
    ([("x.com", "(DDG) foo", "a"); ("x.com", "(DDG) bar", "b")]
     ++ [("y.com", "(MG) baz", "c")])
  = aggregate_search.unique_results
      [("x.com", "(DDG) foo", "a"); ("x.com", "(DDG) bar", "b")]
    ++ aggregate_search.unique_results [("y.com", "(MG) baz", "c")].
Proof.
  refine (proj1 (unique_results_of_new_urls (string * string * string) _
                   [("x.com", "(DDG) foo", "a"); ("x.com", "(DDG) bar", "b")]
                   [("y.com", "(MG) baz", "c")] _)).
  intros url Hin Hin'.
  apply list_elem_of_singleton in Hin' as ->.
  revert Hin. compute_done.
Defined.

(** ** Reporting *)

Section reporting.
Context (filename : string).

Lemma only_reports_refl w : only_reports filename w w.
Proof.
  split; try done.
  - exists EmptyString. by rewrite str_app_nil_r.
  - intros old Hold. exists EmptyString. by rewrite str_app_nil_r.
Qed.

Lemma only_reports_trans w1 w2 w3 :
  only_reports filename w1 w2 → only_reports filename w2 w3 →
  only_reports filename w1 w3.
Proof.
  intros [Ha1 Hi1 Hn1 He1 [out1 Ho1] Hp1 Hf1] [Ha2 Hi2 Hn2 He2 [out2 Ho2] Hp2 Hf2].
  split; try congruence.
  - exists (out1 +:+ out2). by rewrite Ho2, Ho1, str_app_assoc.
  - intros path Hne. by rewrite Hp2, Hp1.
  - intros old Hold. destruct (Hf1 old Hold) as [more1 Hmore1].
    destruct (Hf2 _ Hmore1) as [more2 Hmore2].
    exists (more1 +:+ more2). by rewrite Hmore2, str_app_assoc.
Qed.

Lemma only_reports_keeps_file w w' :
  only_reports filename w w' →
  is_Some (files w !! filename) → is_Some (files w' !! filename).
Proof.
  intros Hrep [old Hold]. destruct (rep_file _ _ _ Hrep old Hold) as [more ->].
  by eexists.
Qed.

Lemma reports_ret {A} (a : A) : reports filename (io_ret a).
Proof. intros w _. exists a, w. split; [done | apply only_reports_refl]. Qed.

Lemma reports_bind {A B} (m : io A) (k : A → io B) :
  reports filename m → (∀ a, reports filename (k a)) →
  reports filename (io_bind m k).
Proof.
  intros Hm Hk w Hopen. destruct (Hm w Hopen) as (a & w1 & Hrun & Hrep).
  destruct (Hk a w1) as (b & w2 & Hrun' & Hrep').
  { by rewrite (rep_open_error _ _ _ Hrep). }
  exists b, w2. unfold io_bind. rewrite Hrun, Hrun'.
  split; [done | by eapply only_reports_trans].
Qed.

Lemma reports_then_to_file {A B} (m : io A) (k : A → io B) :
  reports filename m → (∀ a, reports_to_file filename (k a)) →
  reports_to_file filename (io_bind m k).
Proof.
  intros Hm Hk w Hopen. destruct (Hm w Hopen) as (a & w1 & Hrun & Hrep).
  destruct (Hk a w1) as (b & w2 & Hrun' & Hrep' & Hfile).
  { by rewrite (rep_open_error _ _ _ Hrep). }
  exists b, w2. unfold io_bind. rewrite Hrun, Hrun'.
  split_and!; [done | by eapply only_reports_trans | done].
Qed.

Lemma reports_to_file_then {A B} (m : io A) (k : A → io B) :
  reports_to_file filename m → (∀ a, reports filename (k a)) →
  reports_to_file filename (io_bind m k).
Proof.
  intros Hm Hk w Hopen. destruct (Hm w Hopen) as (a & w1 & Hrun & Hrep & Hfile).
  destruct (Hk a w1) as (b & w2 & Hrun' & Hrep').
  { by rewrite (rep_open_error _ _ _ Hrep). }
  exists b, w2. unfold io_bind. rewrite Hrun, Hrun'.
  split_and!; [done | by eapply only_reports_trans |].
  by eapply only_reports_keeps_file.
Qed.

Lemma reports_to_file_reports {A} (m : io A) :
  reports_to_file filename m → reports filename m.
Proof.
  intros Hm w Hopen. destruct (Hm w Hopen) as (a & w' & Hrun & Hrep & _).
  by exists a, w'.
Qed.

Lemma reports_print s : reports filename (print s).
Proof.
  intros w _. eexists _, _. split; [done|].
  split; try done. by eexists.
  intros old Hold. exists EmptyString. by rewrite str_app_nil_r.
Qed.

Lemma reports_time_sleep n : reports filename (time_sleep n).
Proof. apply reports_ret. Qed.

Lemma reports_getitem k d :
  is_Some (Py.get k d) → reports filename (getitem k d).
Proof. intros [v Hv]. unfold getitem. rewrite Hv. apply reports_ret. Qed.

Lemma reports_for_each {A S} (xs : list A) (acc : S) (body : S → A → io S) :
  (∀ acc x, x ∈ xs → reports filename (body acc x)) →
  reports filename (for_each xs acc body).
Proof.
  revert acc. induction xs as [|x xs IH]; intros acc Hbody.
  - apply reports_ret.
  - cbn [for_each]. apply reports_bind.
    + apply Hbody, list_elem_of_here.
    + intros acc'. apply IH. intros acc'' y Hy.
      by apply Hbody, list_elem_of_further.
Qed.

End reporting.

Lemma reports_results2file (search_txt data : string) :
  reports_to_file ("Results_" +:+ search_txt +:+ ".txt")
    (files.results2file search_txt data).
Proof.
  intros w Hopen. rewrite results2file_run, Hopen. eexists _, _.
  split_and!; [done| |].
  - split; try done.
    + exists EmptyString. by rewrite str_app_nil_r.
    + intros path Hne. simpl. by rewrite lookup_insert_ne.
    + intros old Hold. simpl. rewrite lookup_insert_eq, Hold. by eexists.
  - simpl. rewrite lookup_insert_eq. by eexists.
Qed.

Ltac reporting :=
  repeat first
    [ apply reports_ret
    | apply reports_print
    | apply reports_time_sleep
    | apply reports_to_file_reports, reports_results2file
    | apply reports_bind; [|intros ?]
    | apply reports_for_each; intros ? ? ? ].

Section multi_search_this.
Variables (module_doc module_file argparse_help : string).
Variables (dgg_UA sp_UA moj_UA mg_UA : string).
Variables (Duckduckgo Mojeek Startpage Metager : string → Engine).

Local Abbreviation search_this :=
  (multi_search.search_this dgg_UA sp_UA moj_UA mg_UA
     Duckduckgo Mojeek Startpage Metager).
Local Abbreviation engines :=
  (multi_search.engines dgg_UA sp_UA moj_UA mg_UA
     Duckduckgo Mojeek Startpage Metager).
Local Abbreviation main :=
  (multi_search.main module_doc module_file argparse_help
     dgg_UA sp_UA moj_UA mg_UA Duckduckgo Mojeek Startpage Metager).

Lemma multi_engines_named e_key engine :
  (e_key, engine) ∈ engines →
  is_Some (Py.get e_key multi_search.engine_names).
Proof.
  unfold multi_search.engines. intros Hin.
  repeat (apply elem_of_cons in Hin as [[= -> _]|Hin]; [by eexists|]).
  by apply elem_of_nil in Hin.
Qed.

Lemma multi_search_this_reports (search_term : string) :
  reports_to_file ("Results_" +:+ search_term +:+ ".txt")
    (search_this search_term).
Proof.
  unfold multi_search.search_this, multi_search.FileIt.
  apply reports_then_to_file.
  - apply reports_for_each. intros acc [e_key engine] Hin.
    destruct (multi_search.kept e_key engine search_term) as [links titles].
    apply reports_bind; [by eapply reports_getitem, multi_engines_named|].
    intros name. reporting.
  - intros combined_results. cbn zeta.
    apply reports_then_to_file; [apply reports_print|]. intros _.
    apply reports_to_file_then; [apply reports_results2file|]. intros _.
    reporting.
Qed.

(** X9.  Whenever the report file can be opened, [search_this] of
    [multi_search] returns: no key is missing and nothing else can fail.
    All it does is printing and putting text at the end of
    [Results_<term>.txt], which exists afterwards; no other file, and
    nothing of what the file held, is changed. *)
Theorem multi_search_this_only_reports (search_term : string) (w : world) :
  let filename := "Results_" +:+ search_term +:+ ".txt" in
  open_error w filename = None →
  ∃ w', search_this search_term w = (Return tt, w')
        ∧ only_reports filename w w'
        ∧ is_Some (files w' !! filename).
Proof.
  cbn zeta. intros Hopen.
  destruct (multi_search_this_reports search_term w Hopen)
    as ([] & w' & Hrun & Hrep & Hfile).
  by exists w'.
Qed.


End multi_search_this.

Lemma multi_search_this_only_reports_witness :
  ∃ w',
    multi_search.search_this "a" "b" "c" "d"
      (λ _ _ _, SearchResults ["x.com"; "y.com"] ["foo"; "bar"] [])
      (λ _ _ _, SearchResults [] [] [])
      (λ _ _ _, SearchResults ["x.com"] ["baz"] [])
      (λ _ _ _, SearchResults [] [] [])
      "two+words"
      (World [] [] EmptyString "now" {["Results_two+words.txt" := "zero"]}
         (λ _, None))
    = (Return tt, w')
    ∧ only_reports "Results_two+words.txt"
        (World [] [] EmptyString "now" {["Results_two+words.txt" := "zero"]}
           (λ _, None)) w'
    ∧ is_Some (files w' !! "Results_two+words.txt").
Proof.
  exact (multi_search_this_only_reports "a" "b" "c" "d"
           (λ _ _ _, SearchResults ["x.com"; "y.com"] ["foo"; "bar"] [])
           (λ _ _ _, SearchResults [] [] [])
           (λ _ _ _, SearchResults ["x.com"] ["baz"] [])
           (λ _ _ _, SearchResults [] [] [])
           "two+words"
           (World [] [] EmptyString "now"
              {["Results_two+words.txt" := "zero"]} (λ _, None))
           eq_refl).
Defined.


Lemma for_each_raises {A S} (filename : string) (xs1 xs2 : list A) (x : A)
    (acc : S) (body : S → A → io S) (report : A → io unit) (e : exn) :
  (∀ y, y ∈ xs1 → reports filename (report y)) →
  (∀ acc y, y ∈ xs1 →
     ∃ acc', ∀ w, body acc y w = io_bind (report y) (λ _, io_ret acc') w) →
  (∀ acc w, body acc x w = (Raise e, w)) →
  ∀ w, open_error w filename = None →
       ∃ w', for_each (xs1 ++ x :: xs2) acc body w = (Raise e, w')
             ∧ for_each xs1 tt (λ _ y, report y) w = (Return tt, w')
             ∧ only_reports filename w w'.
Proof.
  revert acc.
  induction xs1 as [|y xs1 IH]; intros acc Hrep Hbody Hraise w Hopen.
  - exists w. cbn [app for_each]. unfold io_bind. rewrite Hraise.
    split_and!; [done | done | apply only_reports_refl].
  - destruct (Hbody acc y (list_elem_of_here _ _)) as [acc' Hb].
    destruct (Hrep y (list_elem_of_here _ _) w Hopen) as ([] & w1 & Hrun & Hr).
    assert (for_each ((y :: xs1) ++ x :: xs2) acc body w
            = for_each (xs1 ++ x :: xs2) acc' body w1) as ->.
    { cbn [app for_each]. unfold io_bind at 1. rewrite Hb.
      unfold io_bind at 1. by rewrite Hrun. }
    assert (for_each (y :: xs1) tt (λ _ y, report y) w
            = for_each xs1 tt (λ _ y, report y) w1) as ->.
    { cbn [for_each]. unfold io_bind at 1. by rewrite Hrun. }
    destruct (IH acc') with (w := w1) as (w' & Hrun1 & Hrun2 & Hr');
      [| |done| |].
    + intros z Hz. by apply Hrep, list_elem_of_further.
    + intros acc'' z Hz. by apply Hbody, list_elem_of_further.
    + by rewrite (rep_open_error _ _ _ Hr).
    + exists w'. split_and!; [done | done | by eapply only_reports_trans].
Qed.

Section aggregate_search_this.
Variable agents : string → string.
Variable ENGINE_NAMES : Py.dict string string.
Variables (BLUE YELLOW NC : string).
Variable ReportIt : string → string → io unit.
Variables (Duckduckgo Metager Startpage Mojeek : string → Engine).

Local Abbreviation search_this :=
  (aggregate_search.search_this agents ENGINE_NAMES BLUE YELLOW NC ReportIt
     Duckduckgo Metager Startpage Mojeek).
Local Abbreviation engines :=
  (aggregate_search.engines agents Duckduckgo Metager Startpage Mojeek).

(** X11.  When [ENGINE_NAMES] names the four engine tags and the reporter
    does nothing but report, [search_this] of [aggregate_search] returns
    whenever the report file can be opened, does nothing but report either,
    and leaves the report file in existence. *)
Theorem aggregate_search_this_only_reports (search_term : string) (w : world) :
  let filename := "Results_" +:+ search_term +:+ ".txt" in
  (∀ tag, tag ∈ ["(DDG)"; "(MG)"; "(SP)"; "(Moj)"] →
          is_Some (Py.get tag ENGINE_NAMES)) →
  (∀ msg, reports filename (ReportIt search_term msg)) →
  open_error w filename = None →
  ∃ w', search_this search_term w = (Return tt, w')
        ∧ only_reports filename w w'
        ∧ is_Some (files w' !! filename).
Proof.
  cbn zeta. intros Hnames Hreport Hopen.
  assert (reports_to_file ("Results_" +:+ search_term +:+ ".txt")
            (search_this search_term)) as Hthis.
  { unfold aggregate_search.search_this, aggregate_search.FileIt.
    apply reports_then_to_file.
    { apply reports_for_each. intros acc [tag engine] Hin.
      destruct (aggregate_search.kept tag engine search_term)
        as [[links titles] details].
      apply reports_bind.
      - apply reports_getitem, Hnames.
        unfold aggregate_search.engines in Hin.
        repeat (apply elem_of_cons in Hin as [[= -> _]|Hin];
                [compute_done|]).
        by apply elem_of_nil in Hin.
      - intros name. apply reports_bind; [apply Hreport|].
        intros _. apply reports_ret. }
    intros combined_results. cbn zeta.
    apply reports_then_to_file; [apply Hreport|]. intros _.
    apply reports_then_to_file.
    { apply reports_for_each. intros _ [tag engine] _. apply Hreport. }
    intros _. apply reports_then_to_file; [apply reports_time_sleep|].
    intros _. apply reports_then_to_file.
    { apply reports_for_each. intros _ [[_u _t] _d] _. apply Hreport. }
    intros _. apply reports_to_file_then; [apply reports_results2file|].
    intros name. apply reports_bind; [apply reports_print|].
    intros _. apply Hreport. }
  destruct (Hthis w Hopen) as ([] & w' & Hrun & Hrep & Hfile).
  by exists w'.
Qed.

(** X12.  When [ENGINE_NAMES] lacks an engine tag, [search_this] of
    [aggregate_search] ends with the [KeyError] of the first tag that is
    missing.  By then it has reported the counts of the engines before that
    tag, in the order of [engines], and nothing else: the world it leaves is
    the one that these calls of [ReportIt] leave, so no summary and no
    result has been reported. *)
Theorem aggregate_search_this_missing_name
    (search_term tag : string) (i : nat) (w : world) :
  let filename := "Results_" +:+ search_term +:+ ".txt" in
  list_find (λ tag, Py.get tag ENGINE_NAMES = None)
    ["(DDG)"; "(MG)"; "(SP)"; "(Moj)"] = Some (i, tag) →
  (∀ msg, reports filename (ReportIt search_term msg)) →
  open_error w filename = None →
  ∃ w', search_this search_term w = (Raise (KeyError tag), w')
        ∧ for_each (take i engines) tt
            (λ _ e, ReportIt search_term
                      (aggregate_count_message ENGINE_NAMES search_term e)) w
          = (Return tt, w')
        ∧ only_reports filename w w'.
Proof.
  cbn zeta. intros Hfind Hreport Hopen.
  apply list_find_Some in Hfind as (Hi & Hnone & Hbefore).
  assert (∃ xs1 x xs2, engines = xs1 ++ x :: xs2 ∧ fst x = tag
                       ∧ length xs1 = i
                       ∧ ∀ y, y ∈ xs1 → is_Some (Py.get (fst y) ENGINE_NAMES))
    as (xs1 & x & xs2 & Hsplit & Hx & Hlen & Hxs1).
  { unfold aggregate_search.engines.
    destruct i as [|[|[|[|i]]]]; simplify_eq/=.
    - eexists [], _, _. split_and!; [done..|].
      intros y Hy. by apply elem_of_nil in Hy.
    - eexists [_], _, _. split_and!; [done..|].
      intros y ->%list_elem_of_singleton. simpl.
      apply not_eq_None_Some, (Hbefore 0 "(DDG)"); [done | lia].
    - eexists [_; _], _, _. split_and!; [done..|].
      intros y [->|[->|[]%elem_of_nil]%elem_of_cons]%elem_of_cons; simpl.
      + apply not_eq_None_Some, (Hbefore 0 "(DDG)"); [done | lia].
      + apply not_eq_None_Some, (Hbefore 1 "(MG)"); [done | lia].
    - eexists [_; _; _], _, _. split_and!; [done..|].
      intros y [->|[->|[->|[]%elem_of_nil]%elem_of_cons]%elem_of_cons]%elem_of_cons;
        simpl.
      + apply not_eq_None_Some, (Hbefore 0 "(DDG)"); [done | lia].
      + apply not_eq_None_Some, (Hbefore 1 "(MG)"); [done | lia].
      + apply not_eq_None_Some, (Hbefore 2 "(SP)"); [done | lia]. }
  unfold aggregate_search.search_this. rewrite Hsplit.
  rewrite (take_app_length' xs1 (x :: xs2) i) by done.
  unfold io_bind at 1.
  lazymatch goal with
  | |- context [for_each (xs1 ++ x :: xs2) ?acc ?body w] =>
      destruct (for_each_raises ("Results_" +:+ search_term +:+ ".txt")
                  xs1 xs2 x acc body
                  (λ e, ReportIt search_term
                          (aggregate_count_message ENGINE_NAMES search_term e))
                  (KeyError tag)) with (w := w)
        as (w' & -> & Hcount & Hrep); [| | |exact Hopen|by exists w']
  end.
  - intros y _. apply Hreport.
  - intros acc [tag' engine] Hin. unfold aggregate_count_message.
    destruct (Hxs1 _ Hin) as [name Hname]. simpl in Hname. cbn [fst snd].
    destruct (aggregate_search.kept tag' engine search_term)
      as [[links titles] details].
    exists (acc ++ zip (zip links (prepend_tag tag' titles)) details).
    intros w0. unfold io_bind, getitem. rewrite Hname. simpl.
    by destruct (ReportIt search_term _ w0) as [[[]|e] w1].
  - intros acc w0. destruct x as [tag' engine]. simpl in Hx. subst tag'.
    destruct (aggregate_search.kept tag engine search_term)
      as [[links titles] details].
    unfold io_bind, getitem. by rewrite Hnone.
Qed.

End aggregate_search_this.

(** A reporter as the specification describes it, for the examples: the
    message goes to the console and to the report file. *)
Lemma reports_print_and_file (search_term msg : string) :
  reports ("Results_" +:+ search_term +:+ ".txt")
    (io_bind (print msg)
       (λ _, io_bind (files.results2file search_term (msg +:+ Py.nl))
               (λ _, io_ret tt))).
Proof. reporting. Qed.

Lemma aggregate_search_this_only_reports_witness :
  ∃ w',
    aggregate_search.search_this id
      [("(DDG)", "DuckDuckGo"); ("(MG)", "MetaGer"); ("(SP)", "Startpage");
       ("(Moj)", "Mojeek")]
      "<" ">" "." 
      (λ search_term msg,
         io_bind (print msg)
           (λ _, io_bind (files.results2file search_term (msg +:+ Py.nl))
                   (λ _, io_ret tt)))
      (λ _ _ _, SearchResults ["x.com"] ["foo"] ["a"])
      (λ _ _ _, SearchResults [] [] [])
      (λ _ _ _, SearchResults ["x.com"] ["bar"] ["b"])
      (λ _ _ _, SearchResults [] [] [])
      "two+words"
      (World [] [] EmptyString "now" ∅ (λ _, None))
    = (Return tt, w')
    ∧ only_reports "Results_two+words.txt"
        (World [] [] EmptyString "now" ∅ (λ _, None)) w'
    ∧ is_Some (files w' !! "Results_two+words.txt").
Proof.
  apply (aggregate_search_this_only_reports id
           [("(DDG)", "DuckDuckGo"); ("(MG)", "MetaGer");
            ("(SP)", "Startpage"); ("(Moj)", "Mojeek")]
           "<" ">" "."
           (λ search_term msg,
              io_bind (print msg)
                (λ _, io_bind (files.results2file search_term (msg +:+ Py.nl))
                        (λ _, io_ret tt)))).
  - intros tag Hin.
    repeat (apply elem_of_cons in Hin as [->|Hin]; [by eexists|]).
    by apply elem_of_nil in Hin.
  - intros msg. apply reports_print_and_file.
  - reflexivity.
Defined.

Lemma aggregate_search_this_missing_name_witness :
  ∃ w',
    aggregate_search.search_this id
      [("(DDG)", "DuckDuckGo"); ("(MG)", "MetaGer"); ("(Moj)", "Mojeek")]
      "<" ">" "."
      (λ search_term msg,
         io_bind (print msg)
           (λ _, io_bind (files.results2file search_term (msg +:+ Py.nl))
                   (λ _, io_ret tt)))
      (λ _ _ _, SearchResults ["x.com"] ["foo"] ["a"])
      (λ _ _ _, SearchResults [] [] [])
      (λ _ _ _, SearchResults ["x.com"] ["bar"] ["b"])
      (λ _ _ _, SearchResults [] [] [])
      "two+words"
      (World [] [] EmptyString "now" ∅ (λ _, None))
    = (Raise (KeyError "(SP)"), w')
    ∧ files w' !! "Results_two+words.txt"
      = Some ("Keeping the first 1 results from DuckDuckGo" +:+ Py.nl
              +:+ "Keeping the first 0 results from MetaGer" +:+ Py.nl).
Proof.
  destruct (aggregate_search_this_missing_name id
              [("(DDG)", "DuckDuckGo"); ("(MG)", "MetaGer"); ("(Moj)", "Mojeek")]
              "<" ">" "."
              (λ search_term msg,
                 io_bind (print msg)
                   (λ _, io_bind
                           (files.results2file search_term (msg +:+ Py.nl))
                           (λ _, io_ret tt)))
              (λ _ _ _, SearchResults ["x.com"] ["foo"] ["a"])
              (λ _ _ _, SearchResults [] [] [])
              (λ _ _ _, SearchResults ["x.com"] ["bar"] ["b"])
              (λ _ _ _, SearchResults [] [] [])
              "two+words" "(SP)" 2
              (World [] [] EmptyString "now" ∅ (λ _, None)))
    as (w' & Hrun & Hcount & _).
  - reflexivity.
  - intros msg. apply reports_print_and_file.
  - reflexivity.
  - exists w'. split; [exact Hrun|].
    vm_compute in Hcount. injection Hcount as <-. reflexivity.
Defined.

(** ** Removing the report file *)

(** X13.  [remove_file] leaves no report file for the term, whether there
    was one or not: it never fails for a missing file, because it opens the
    file for appending before it unlinks it.  No other file changes; when the
    file cannot be opened the error is passed on and nothing changes. *)
Theorem remove_file_removes (search_txt : string) (w : world) :
  let filename := "Results_" +:+ search_txt +:+ ".txt" in
  (open_error w filename = None →
   files.remove_file search_txt w
   = (Return tt, set_files (delete filename (files w)) w))
  ∧ (∀ e, open_error w filename = Some e →
          files.remove_file search_txt w = (Raise e, w)).
Proof.
  cbn zeta. unfold files.remove_file, io_bind. rewrite results2file_run.
  split.
  - intros ->. unfold unlink. simpl. rewrite lookup_insert_eq.
    unfold set_files. simpl. by rewrite delete_insert_eq.
  - by intros e ->.
Qed.

Lemma remove_file_removes_witness :
  files.remove_file "a+b" (World [] [] EmptyString "now" ∅ (λ _, None))
  = (Return tt,
     set_files (delete "Results_a+b.txt" ∅)
       (World [] [] EmptyString "now" ∅ (λ _, None))).
Proof.
  pose proof (remove_file_removes "a+b"
                (World [] [] EmptyString "now" ∅ (λ _, None))) as [Hrm _].
  by apply Hrm.
Defined.

(** ** The session headers *)

Section http_client_headers.
Import http_client.
Variables (unquote_url quote_url decode_bytes : string → string).
Variable Data : Type.
Variable session_get : gmap string string → string → Z → result reply.
Variable session_post :
  gmap string string → string → Data → Z → result reply.

Local Abbreviation quoted := (_quote unquote_url quote_url decode_bytes).
Local Abbreviation client_get :=
  (get unquote_url quote_url decode_bytes session_get).
Local Abbreviation client_post :=
  (post unquote_url quote_url decode_bytes Data session_post).

(** X14.  [get] and [post] keep the timeout and every header of the session
    but [Referer]; [Referer] becomes the quoted page when the request went
    through and stays what it was when the request raised, caught or not. *)
Theorem HttpClient_keeps_headers
    (self : HttpClient) (page : string) (data : Data) :
  let after_get := snd (client_get self page) in
  let after_post := snd (client_post self page data) in
  timeout after_get = timeout self
  ∧ (∀ name, name ≠ "Referer" →
             headers after_get !! name = headers self !! name)
  ∧ headers after_get !! "Referer"
    = match session_get (headers self) (quoted page) (timeout self) with
      | Ok _ => Some (quoted page)
      | Raised _ => headers self !! "Referer"
      end
  ∧ timeout after_post = timeout self
  ∧ (∀ name, name ≠ "Referer" →
             headers after_post !! name = headers self !! name)
  ∧ headers after_post !! "Referer"
    = match session_post (headers self) (quoted page) data (timeout self) with
      | Ok _ => Some (quoted page)
      | Raised _ => headers self !! "Referer"
      end.
Proof.
  cbn zeta. unfold get, post.
  destruct (session_get _ _ _) as [req|[cls doc|cls]],
           (session_post _ _ _ _) as [req'|[cls' doc'|cls']]; simpl;
    split_and!; try done;
    try (by rewrite lookup_insert_eq);
    by (intros name Hne; rewrite lookup_insert_ne).
Qed.

End http_client_headers.

(** ** The command line, in full *)

Lemma parser_parse_args_from_help help args ns w :
  FlagHelp ∈ args →
  parser_parse_args_from help args ns w
  = (Raise (SystemExit 0), set_stdout (stdout w +:+ help +:+ Py.nl) w).
Proof.
  revert ns. induction args as [|flag args IH]; intros ns Hin.
  - by apply elem_of_nil in Hin.
  - destruct flag; cbn [parser_parse_args_from]; [| |done];
      apply elem_of_cons in Hin as [?|Hin]; try done; by apply IH.
Qed.

Lemma flags_without_help (args : list cli_flag) :
  args ≠ [] → FlagHelp ∉ args →
  bool_decide (FlagAbout ∈ args) || bool_decide (FlagUse ∈ args) = true.
Proof.
  destruct args as [|[| |] args]; intros Hne Hhelp; [done| | |].
  - by rewrite (bool_decide_true (FlagAbout ∈ _)) by apply list_elem_of_here.
  - rewrite (bool_decide_true (FlagUse ∈ _)) by apply list_elem_of_here.
    apply orb_true_r.
  - exfalso. apply Hhelp, list_elem_of_here.
Qed.

Lemma set_stdout_set_stdout s1 s2 w :
  set_stdout s2 (set_stdout s1 w) = set_stdout s2 w.
Proof. done. Qed.

Section parse_args_in_full.
Variables (module_doc module_file argparse_help : string).
Variables (about_data resolve : string → string).

Local Abbreviation aggregate_parse_args :=
  (aggregate_search.parse_args module_doc module_file argparse_help
     about_data resolve).
Local Abbreviation multi_parse_args :=
  (multi_search.parse_args module_doc module_file argparse_help).

Lemma aggregate_parse_args_cases assist w :
  ∃ out,
    aggregate_parse_args assist w
    = (if bool_decide (argv w = [])
          && negb (Py.str_in (aggregate_search.str_of_assist assist)
                     "-help, --help")
       then Return tt else Raise (SystemExit 0),
       set_stdout (stdout w +:+ out) w).
Proof.
  unfold aggregate_search.parse_args. unfold io_bind at 1.
  destruct (decide (FlagHelp ∈ argv w)) as [Hhelp|Hhelp].
  { unfold parser_parse_args.
    rewrite parser_parse_args_from_help by done.
    rewrite (bool_decide_false (argv w = [])) by (intros Hnil; rewrite Hnil in Hhelp;
                                  by apply elem_of_nil in Hhelp).
    by eexists. }
  rewrite parser_parse_args_no_help by done. cbn [about use].
  destruct (bool_decide (FlagAbout ∈ argv w)) eqn:Habout.
  { rewrite (bool_decide_false (argv w = []))
      by (intros Hnil; rewrite Hnil in Habout; done).
    eexists. unfold io_bind, print2, print, sys_exit, raise. simpl.
    rewrite !str_app_assoc. reflexivity. }
  unfold io_bind at 1. unfold io_ret at 1.
  destruct (bool_decide (FlagUse ∈ argv w)
            || Py.str_in (aggregate_search.str_of_assist assist)
                 "-help, --help") eqn:Huse.
  - assert (bool_decide (argv w = [])
            && negb (Py.str_in (aggregate_search.str_of_assist assist)
                       "-help, --help") = false) as ->.
    { apply orb_true_iff in Huse as [Huse|Huse].
      - rewrite (bool_decide_false (argv w = [])); [done|].
        intros Hnil. by rewrite Hnil in Huse.
      - rewrite Huse. apply andb_false_r. }
    unfold io_bind, try_except, read_text, print, sys_exit, raise. simpl.
    destruct (files w !! _) as [syntax|]; simpl; eexists;
      rewrite !str_app_assoc; reflexivity.
  - apply orb_false_iff in Huse as [Huse ->].
    assert (argv w = []) as Hnil.
    { destruct (decide (argv w = [])) as [|Hne]; [done|].
      pose proof (flags_without_help _ Hne Hhelp) as Hflags.
      by rewrite Habout, Huse in Hflags. }
    rewrite (bool_decide_true (argv w = [])) by done. simpl.
    exists EmptyString. unfold io_ret, set_stdout.
    by rewrite str_app_nil_r, world_eta.
Qed.

Lemma multi_parse_args_cases w :
  ∃ out,
    multi_parse_args w
    = (if bool_decide (argv w = []) then Return tt else Raise (SystemExit 0),
       set_stdout (stdout w +:+ out) w).
Proof.
  unfold multi_search.parse_args. unfold io_bind at 1.
  destruct (decide (FlagHelp ∈ argv w)) as [Hhelp|Hhelp].
  { unfold parser_parse_args.
    rewrite parser_parse_args_from_help by done.
    rewrite (bool_decide_false (argv w = [])) by (intros Hnil; rewrite Hnil in Hhelp;
                                  by apply elem_of_nil in Hhelp).
    by eexists. }
  rewrite parser_parse_args_no_help by done. cbn [about use].
  destruct (bool_decide (FlagAbout ∈ argv w)) eqn:Habout.
  { rewrite (bool_decide_false (argv w = []))
      by (intros Hnil; rewrite Hnil in Habout; done).
    eexists. unfold io_bind, print2, print, sys_exit, raise. simpl.
    rewrite !str_app_assoc. reflexivity. }
  unfold io_bind at 1. unfold io_ret at 1.
  destruct (bool_decide (FlagUse ∈ argv w)) eqn:Huse.
  - rewrite (bool_decide_false (argv w = []))
      by (intros Hnil; by rewrite Hnil in Huse).
    unfold io_bind, try_except, read_text, print, sys_exit, raise. simpl.
    destruct (files w !! _) as [syntax|]; simpl; eexists;
      rewrite !str_app_assoc; reflexivity.
  - assert (argv w = []) as Hnil.
    { destruct (decide (argv w = [])) as [|Hne]; [done|].
      pose proof (flags_without_help _ Hne Hhelp) as Hflags.
      by rewrite Habout, Huse in Hflags. }
    rewrite (bool_decide_true (argv w = [])) by done.
    exists EmptyString. unfold io_ret, set_stdout.
    by rewrite str_app_nil_r, world_eta.
Qed.

(** X15.  Whatever flags are given and whether the usage file exists or
    not, [parse_args] only prints: it returns when there is no flag (and, in
    [aggregate_search], no help word), and ends the program with status 0
    otherwise; files and pending input stay as they are. *)
Theorem parse_args_returns_or_exits_0 (assist : option string) (w : world) :
  (∃ out,
     aggregate_parse_args assist w
     = (if bool_decide (argv w = [])
           && negb (Py.str_in (aggregate_search.str_of_assist assist)
                      "-help, --help")
        then Return tt else Raise (SystemExit 0),
        set_stdout (stdout w +:+ out) w))
  ∧ exit_status (fst (aggregate_parse_args assist w)) = 0%Z
  ∧ (∃ out,
       multi_parse_args w
       = (if bool_decide (argv w = []) then Return tt
          else Raise (SystemExit 0),
          set_stdout (stdout w +:+ out) w))
  ∧ exit_status (fst (multi_parse_args w)) = 0%Z.
Proof.
  pose proof (aggregate_parse_args_cases assist w) as [out Hagg].
  pose proof (multi_parse_args_cases w) as [out' Hmulti].
  split_and!.
  - by exists out.
  - rewrite Hagg. by destruct (_ && _).
  - by exists out'.
  - rewrite Hmulti. by destruct (bool_decide _).
Qed.

(** X16.  With [--use], without [--about] and [--help], and with the usage
    file in place, both programs print the usage line and the text of the
    file and end with status 0. *)
Theorem parse_args_prints_usage_file (syntax : string) (w : world) :
  FlagHelp ∉ argv w → FlagAbout ∉ argv w → FlagUse ∈ argv w →
  (files w !! resolve "aggregate_utils/use_syntax.txt" = Some syntax →
   aggregate_parse_args None w
   = (Raise (SystemExit 0),
      set_stdout (stdout w +:+ usage_line module_file +:+ Py.nl
                  +:+ syntax +:+ Py.nl) w))
  ∧ (files w !! "multi_search_utils/use_syntax.txt" = Some syntax →
     multi_parse_args w
     = (Raise (SystemExit 0),
        set_stdout (stdout w +:+ usage_line module_file +:+ Py.nl
                    +:+ syntax +:+ Py.nl) w)).
Proof.
  intros Hhelp Habout Huse. split; intros Hfile.
  - unfold aggregate_search.parse_args. unfold io_bind at 1.
    rewrite parser_parse_args_no_help by done.
    rewrite (bool_decide_false (FlagAbout ∈ _)) by done.
    rewrite (bool_decide_true (FlagUse ∈ _)) by done. cbn [about use orb].
    unfold io_bind, io_ret, try_except, read_text, print, sys_exit, raise.
    simpl. rewrite Hfile. simpl. unfold usage_line.
    by rewrite !str_app_assoc.
  - unfold multi_search.parse_args. unfold io_bind at 1.
    rewrite parser_parse_args_no_help by done.
    rewrite (bool_decide_false (FlagAbout ∈ _)) by done.
    rewrite (bool_decide_true (FlagUse ∈ _)) by done. cbn [about use].
    unfold io_bind, io_ret, try_except, read_text, print, sys_exit, raise.
    simpl. rewrite Hfile. simpl. unfold usage_line.
    by rewrite !str_app_assoc.
Qed.

End parse_args_in_full.

Lemma parse_args_prints_usage_file_witness :
  multi_search.parse_args "doc" "multi_search.py" "help"
    (World [FlagUse] [] EmptyString "now"
       {["multi_search_utils/use_syntax.txt" := "syntax"]} (λ _, None))
  = (Raise (SystemExit 0),
     set_stdout (EmptyString +:+ usage_line "multi_search.py" +:+ Py.nl
                 +:+ "syntax" +:+ Py.nl)
       (World [FlagUse] [] EmptyString "now"
          {["multi_search_utils/use_syntax.txt" := "syntax"]} (λ _, None))).
Proof.
  pose proof (parse_args_prints_usage_file "doc" "multi_search.py" "help"
                (λ _, EmptyString) id "syntax"
                (World [FlagUse] [] EmptyString "now"
                   {["multi_search_utils/use_syntax.txt" := "syntax"]}
                   (λ _, None))) as Hthm.
  destruct Hthm as [_ Hmulti]; [compute_done..|].
  by apply Hmulti.
Defined.

(** ** Leaving at the prompt *)

Section quit_at_prompt.
Variables (module_doc module_file argparse_help : string).
Variables (about_data agents : string → string).
Variable ENGINE_NAMES : Py.dict string string.
Variables (BLUE YELLOW NC : string).
Variable ReportIt : string → string → io unit.
Variable report_agents : string → io unit.
Variable resolve : string → string.
Variables (dgg_UA sp_UA moj_UA mg_UA : string).
Variables (Duckduckgo Metager Startpage Mojeek : string → Engine).

Local Abbreviation aggregate_main :=
  (aggregate_search.main module_doc module_file argparse_help about_data
     agents ENGINE_NAMES BLUE YELLOW NC ReportIt report_agents resolve
     Duckduckgo Metager Startpage Mojeek).
Local Abbreviation multi_main :=
  (multi_search.main module_doc module_file argparse_help
     dgg_UA sp_UA moj_UA mg_UA Duckduckgo Mojeek Startpage Metager).

(** X17.  When the input ends at the prompt, both programs print the
    prompt and the notice that the user has quit, and end with status 0;
    no engine is asked and no file is written. *)
Theorem end_of_input_at_prompt (w : world) :
  let quit :=
    set_stdout
      ((stdout w +:+ Py.nl +:+ "Enter search term: ")
       +:+ (" *** Keyboard interrupt: User has quit the program ***"
            +:+ Py.nl) +:+ Py.nl) w in
  argv w = [] → stdin w = [] →
  run_main aggregate_main w = (Raise (SystemExit 0), quit)
  ∧ run_main multi_main w = (Raise (SystemExit 0), quit)
  ∧ exit_status (fst (run_main aggregate_main w)) = 0%Z
  ∧ exit_status (fst (run_main multi_main w)) = 0%Z.
Proof.
  cbn zeta. intros Hargv Hstdin.
  assert (run_main aggregate_main w
          = (Raise (SystemExit 0),
             set_stdout
               ((stdout w +:+ Py.nl +:+ "Enter search term: ")
                +:+ (" *** Keyboard interrupt: User has quit the program ***"
                     +:+ Py.nl) +:+ Py.nl) w)) as Hagg.
  { unfold run_main, try_except, aggregate_search.main,
      aggregate_search.main_header.
    unfold io_bind at 1. unfold io_bind at 1. unfold io_bind at 1.
    rewrite (parse_args_passes module_doc module_file argparse_help
               about_data resolve None w) by done.
    unfold io_bind at 1. unfold input. by rewrite Hstdin. }
  assert (run_main multi_main w
          = (Raise (SystemExit 0),
             set_stdout
               ((stdout w +:+ Py.nl +:+ "Enter search term: ")
                +:+ (" *** Keyboard interrupt: User has quit the program ***"
                     +:+ Py.nl) +:+ Py.nl) w)) as Hmulti.
  { unfold run_main, try_except, multi_search.main,
      multi_search.main_header.
    unfold io_bind at 1. unfold io_bind at 1. unfold io_bind at 1.
    rewrite multi_parse_args_passes by done.
    unfold io_bind at 1. unfold input. by rewrite Hstdin. }
  by rewrite Hagg, Hmulti.
Qed.

End quit_at_prompt.

Lemma end_of_input_at_prompt_witness :
  run_main
    (multi_search.main "doc" "multi_search.py" "help" "a" "b" "c" "d"
       (λ _ _ _, SearchResults [] [] []) (λ _ _ _, SearchResults [] [] [])
       (λ _ _ _, SearchResults [] [] []) (λ _ _ _, SearchResults [] [] []))
    (World [] [] EmptyString "now" ∅ (λ _, None))
  = (Raise (SystemExit 0),
     set_stdout
       ((EmptyString +:+ Py.nl +:+ "Enter search term: ")
        +:+ (" *** Keyboard interrupt: User has quit the program ***"
             +:+ Py.nl) +:+ Py.nl)
       (World [] [] EmptyString "now" ∅ (λ _, None))).
Proof.
  pose proof (end_of_input_at_prompt "doc" "multi_search.py" "help"
                (λ _, EmptyString) id [] EmptyString EmptyString EmptyString
                (λ _ _, io_ret tt) (λ _, io_ret tt) id "a" "b" "c" "d"
                (λ _ _ _, SearchResults [] [] [])
                (λ _ _ _, SearchResults [] [] [])
                (λ _ _ _, SearchResults [] [] [])
                (λ _ _ _, SearchResults [] [] [])
                (World [] [] EmptyString "now" ∅ (λ _, None))
                eq_refl eq_refl) as (_ & Hmulti & _).
  exact Hmulti.
Defined.

(** ** A help word at the prompt *)

Section help_at_prompt.
Variables (module_doc module_file argparse_help : string).
Variables (about_data agents : string → string).
Variable ENGINE_NAMES : Py.dict string string.
Variables (BLUE YELLOW NC : string).
Variable ReportIt : string → string → io unit.
Variable report_agents : string → io unit.
Variable resolve : string → string.
Variables (Duckduckgo Metager Startpage Mojeek : string → Engine).

Local Abbreviation aggregate_main :=
  (aggregate_search.main module_doc module_file argparse_help about_data
     agents ENGINE_NAMES BLUE YELLOW NC ReportIt report_agents resolve
     Duckduckgo Metager Startpage Mojeek).

(** X19.  When the term entered at the prompt of [aggregate_search], with
    its leading whitespace stripped, is a substring of ['-help, --help'] (an
    empty or blank line, [help], [-], ...), the program ends with status 0
    whether the usage file exists or not: the line is taken from the
    input, no report file is written and no engine result is reported. *)
Theorem help_word_at_prompt
    (entered : string) (rest : list string) (w : world) :
  argv w = [] → stdin w = entered :: rest →
  Py.str_in (Py.lstrip entered) "-help, --help" →
  ∃ w', run_main aggregate_main w = (Raise (SystemExit 0), w')
        ∧ files w' = files w
        ∧ stdin w' = rest
        ∧ exit_status (fst (run_main aggregate_main w)) = 0%Z.
Proof.
  intros Hargv Hstdin Hword.
  assert (∃ w', run_main aggregate_main w = (Raise (SystemExit 0), w')
                ∧ files w' = files w ∧ stdin w' = rest)
    as (w' & Hrun & Hfiles & Hin); [|exists w'; by rewrite Hrun].
  unfold run_main, try_except, aggregate_search.main,
    aggregate_search.main_header.
  unfold io_bind at 1. unfold io_bind at 1. unfold io_bind at 1.
  rewrite (parse_args_passes module_doc module_file argparse_help
             about_data resolve None w) by done.
  unfold io_bind at 1. unfold input. rewrite Hstdin.
  unfold io_bind at 1. unfold print at 1.
  unfold io_bind at 1.
  set (w2 := set_stdout _ (set_stdin _ _)).
  assert (Py.str_in (Py.lstrip entered) "-help, --help, -h" = true) as ->.
  { apply (str_in_app_r _ "-help, --help" ", -h"). by apply Is_true_true. }
  destruct (aggregate_parse_args_cases module_doc module_file argparse_help
              about_data resolve (Some (Py.lstrip entered)) w2)
    as [out ->].
  unfold aggregate_search.str_of_assist, default, from_option, id.
  apply Is_true_true in Hword. rewrite Hword, andb_false_r.
  eexists. split; [done|]. by subst w2.
Qed.

End help_at_prompt.

Lemma help_word_at_prompt_witness :
  ∃ w',
    run_main
      (aggregate_search.main "doc" "aggregate_search.py" "help"
         (λ _, EmptyString) id [] EmptyString EmptyString EmptyString
         (λ _ _, io_ret tt) (λ _, io_ret tt) id
         (λ _ _ _, SearchResults [] [] []) (λ _ _ _, SearchResults [] [] [])
         (λ _ _ _, SearchResults [] [] []) (λ _ _ _, SearchResults [] [] []))
      (World [] ["  "; "next"] EmptyString "now" ∅ (λ _, None))
    = (Raise (SystemExit 0), w')
    ∧ files w' = ∅
    ∧ stdin w' = ["next"].
Proof.
  destruct (help_word_at_prompt "doc" "aggregate_search.py" "help"
              (λ _, EmptyString) id [] EmptyString EmptyString EmptyString
              (λ _ _, io_ret tt) (λ _, io_ret tt) id
              (λ _ _ _, SearchResults [] [] [])
              (λ _ _ _, SearchResults [] [] [])
              (λ _ _ _, SearchResults [] [] [])
              (λ _ _ _, SearchResults [] [] [])
              "  " ["next"]
              (World [] ["  "; "next"] EmptyString "now" ∅ (λ _, None))
              eq_refl eq_refl)
    as (w' & Hrun & Hfiles & Hin & _).
  - by vm_compute.
  - by exists w'.
Defined.

(** ** Tagging, then counting *)

Lemma prefix_app (sub s : string) : String.prefix sub (sub +:+ s) = true.
Proof.
  induction sub as [|c sub IH]; [by destruct s|].
  change (String c sub +:+ s) with (String c (sub +:+ s)). simpl.
  by destruct (ascii_dec c c).
Qed.

Lemma str_in_of_prefix (sub s : string) :
  String.prefix sub s = true → Py.str_in sub s = true.
Proof.
  intros Hpre.
  destruct s; unfold Py.str_in; fold Py.str_in; by rewrite Hpre.
Qed.

Lemma str_in_tagged (tag title : string) :
  Py.str_in tag (tag +:+ " " +:+ title) = true.
Proof. apply str_in_of_prefix, prefix_app. Qed.

Lemma filter_all {A} (P : A → Prop) `{∀ x, Decision (P x)} (l : list A) :
  Forall P l → filter P l = l.
Proof.
  induction 1 as [|x l Hx Hl IH]; [done|].
  by rewrite filter_cons_True, IH.
Qed.

(** X18.  The results taken from one engine are all counted for the tag of
    that engine, whatever their titles are: tagging and counting agree, in
    both programs. *)
Theorem own_results_are_counted
    (tag e_key : string) (links titles details : list string) :
  aggregate_search.num_uniq tag
    (zip (zip links (prepend_tag tag titles)) details)
  = length (zip (zip links titles) details)
  ∧ multi_search.num_uniq_hit ("(" +:+ e_key +:+ ")")
      (zip links (prepend_tag ("(" +:+ e_key +:+ ")") titles))
    = length (zip links titles).
Proof.
  rewrite !prepend_tag_fmap. split.
  - unfold aggregate_search.num_uniq.
    rewrite (sum_bool_filter (λ res : string * string * string,
                                Py.str_in tag res.1.2)).
    rewrite filter_all.
    + by rewrite !length_zip_with, length_fmap.
    + apply Forall_forall. intros [[link title] detail] Hin.
      apply elem_of_zip_l, elem_of_zip_r in Hin. simpl in *.
      apply list_elem_of_fmap in Hin as (title' & -> & _).
      by rewrite str_in_tagged.
  - unfold multi_search.num_uniq_hit. rewrite filter_all.
    + by rewrite !length_zip_with, length_fmap.
    + apply Forall_forall. intros [link title] Hin.
      apply elem_of_zip_r in Hin. simpl in *.
      apply list_elem_of_fmap in Hin as (title' & -> & _).
      by rewrite str_in_tagged.
Qed.
